(** * spatial-controls: a shallow embedding of the translation manager,
      the zoom settings and the controller's event handlers.

    JavaScript numbers are IEEE 754 binary64 values; they are modelled by
    Rocq's primitive floats, whose operations are the correctly rounded
    binary64 operations.  Objects that the source mutates in place are
    modelled by explicit state passing: every method takes the receiver's
    state and returns the new one. *)

From stdpp Require Import gmap strings.
From Stdlib Require Import Floats ZArith Bool List Lia.
Import ListNotations.

Set Warnings "-inexact-float".

(** ** JavaScript numbers *)

Module JS.

Local Open Scope float_scope.

Definition number : Set := float.

(** [Number.POSITIVE_INFINITY] *)
Definition POSITIVE_INFINITY : number := infinity.

(** [+0] and [-0] are told apart by [Math.max] and [Math.min]. *)
Definition is_pos_zero (x : number) : bool :=
  match classify x with PZero => true | _ => false end.

Definition is_neg_zero (x : number) : bool :=
  match classify x with NZero => true | _ => false end.

(** [Math.max(x, y)] (ECMAScript 21.3.2.24 at two arguments): NaN when an
    argument is NaN, otherwise the larger one, [+0] counting as larger
    than [-0]. *)
Definition Math_max (x y : number) : number :=
  if is_nan x || is_nan y then nan
  else if (x <? y) || (is_neg_zero x && is_pos_zero y) then y
  else x.

(** [Math.min(x, y)] (ECMAScript 21.3.2.25 at two arguments). *)
Definition Math_min (x y : number) : number :=
  if is_nan x || is_nan y then nan
  else if (y <? x) || (is_neg_zero y && is_pos_zero x) then y
  else x.

(** [ToBoolean] of a number: false exactly for [+0], [-0] and NaN. *)
Definition truthy (x : number) : bool :=
  negb (is_zero x || is_nan x).

(** [x || y] on numbers. *)
Definition or_else (x y : number) : number :=
  if truthy x then x else y.

End JS.

(** ** The vector and quaternion primitives of three.js

    The host library is an external collaborator; the operations below are
    the ones the translation manager and the controller call, with the
    arithmetic of three.js r126 to r130 (the peer dependency range). *)

Module Three.

Import JS.
Local Open Scope float_scope.

Record Vector3 : Set := mkVector3 { x : number; y : number; z : number }.

Record Quaternion : Set :=
  mkQuaternion { qx : number; qy : number; qz : number; qw : number }.

(** [new Quaternion()] is the identity rotation. *)
Definition identity : Quaternion := mkQuaternion 0 0 0 1.

(** [a.add(b)] *)
Definition add (a b : Vector3) : Vector3 :=
  mkVector3 (x a + x b) (y a + y b) (z a + z b).

(** [a.sub(b)], and [v.subVectors(a, b)] *)
Definition sub (a b : Vector3) : Vector3 :=
  mkVector3 (x a - x b) (y a - y b) (z a - z b).

(** [a.multiplyScalar(s)] *)
Definition multiplyScalar (a : Vector3) (s : number) : Vector3 :=
  mkVector3 (x a * s) (y a * s) (z a * s).

(** [a.applyQuaternion(q)]: the product q * a * q^-1, written out as
    three.js does. *)
Definition applyQuaternion (a : Vector3) (q : Quaternion) : Vector3 :=
  let ix := qw q * x a + qy q * z a - qz q * y a in
  let iy := qw q * y a + qz q * x a - qx q * z a in
  let iz := qw q * z a + qx q * y a - qy q * x a in
  let iw := - qx q * x a - qy q * y a - qz q * z a in
  mkVector3
    (ix * qw q + iw * - qx q + iy * - qz q - iz * - qy q)
    (iy * qw q + iw * - qy q + iz * - qx q - ix * - qz q)
    (iz * qw q + iw * - qz q + ix * - qy q - iy * - qx q).

(** The event objects handed to [dispatchEvent] carry a type tag only. *)
Record Event3 : Set := mkEvent { type : string }.

End Three.

(** ** Control modes, axes and the time constant *)

Inductive ControlMode : Set := FIRST_PERSON | THIRD_PERSON.

Definition ControlMode_eqb (a b : ControlMode) : bool :=
  match a, b with
  | FIRST_PERSON, FIRST_PERSON | THIRD_PERSON, THIRD_PERSON => true
  | _, _ => false
  end.

Module axes.

Import Three.
Local Open Scope float_scope.

(** Modelled from the spec: the module [core/axes] is not part of the
    sources.  Section 4.3 names the three local axes: right/left along
    local +X, up/down along local +Y, forward/back along local -Z, each an
    axis-local unit vector. *)
Definition x : Vector3 := mkVector3 1 0 0.
Definition y : Vector3 := mkVector3 0 1 0.
Definition z : Vector3 := mkVector3 0 0 1.

End axes.

(** Modelled from the spec: the module [core/time] is not part of the
    sources.  Section 4.3: elapsed time is the difference of two timestamps
    "converted from milliseconds to seconds". *)
Definition MILLISECONDS_TO_SECONDS : JS.number := (1 / 1000)%float.

(** ** The movement state *)

Inductive Direction : Set := FORWARD | LEFT | BACKWARD | RIGHT | DOWN | UP.

Module MovementState.

(** The fields are the ones [TranslationManager.translate] reads. *)
Record t : Set := mk {
  left : bool;
  right : bool;
  forward : bool;
  backward : bool;
  up : bool;
  down : bool;
  boost : bool;
  backwardBeforeForward : bool;
  rightBeforeLeft : bool;
  upBeforeDown : bool
}.

(** Every flag cleared. *)
Definition released : t :=
  mk false false false false false false false false false false.

(** Modelled from the spec: the class [MovementState] is not part of the
    sources.  Section 4.1: "A reset() operation clears all seven/nine
    booleans to false". *)
Definition reset (_ : t) : t := released.

(** Modelled from the spec: a movement state is created once per controller
    and changed by key events only (section 3); a fresh one has no flag
    set. *)
Definition new : t := released.

(** Modelled from the spec: the movement strategies are not part of the
    sources.  Glossary: "Tie-break flag: per-axis memory of which of two
    opposing directional inputs was activated most recently, used to
    resolve simultaneous opposite key holds"; section 4.1, rationale:
    "resolving both forward and backward held by most recently pressed
    wins"; section 8: the dominant direction "is always the most recently
    activated of the pair while both remain held".  An activation therefore
    sets the direction's own flag and records the direction in the
    tie-break flag of its pair.  (One sentence of section 4.1 keeps the
    flag as it is when the opposite direction is held; it makes the first
    press win, against these three passages, and is not followed.)  The
    tie-break flags are read the way [translate] reads them: a set flag
    gives priority to backward, right and up. *)
Definition activate (d : Direction) (s : t) : t :=
  match d with
  | FORWARD =>
      mk (left s) (right s) true (backward s) (up s) (down s) (boost s)
         false (rightBeforeLeft s) (upBeforeDown s)
  | BACKWARD =>
      mk (left s) (right s) (forward s) true (up s) (down s) (boost s)
         true (rightBeforeLeft s) (upBeforeDown s)
  | LEFT =>
      mk true (right s) (forward s) (backward s) (up s) (down s) (boost s)
         (backwardBeforeForward s) false (upBeforeDown s)
  | RIGHT =>
      mk (left s) true (forward s) (backward s) (up s) (down s) (boost s)
         (backwardBeforeForward s) true (upBeforeDown s)
  | DOWN =>
      mk (left s) (right s) (forward s) (backward s) (up s) true (boost s)
         (backwardBeforeForward s) (rightBeforeLeft s) false
  | UP =>
      mk (left s) (right s) (forward s) (backward s) true (down s) (boost s)
         (backwardBeforeForward s) (rightBeforeLeft s) true
  end.

(** Modelled from the spec: section 4.1, "On deactivation, clear only that
    direction's own flag." *)
Definition deactivate (d : Direction) (s : t) : t :=
  match d with
  | FORWARD =>
      mk (left s) (right s) false (backward s) (up s) (down s) (boost s)
         (backwardBeforeForward s) (rightBeforeLeft s) (upBeforeDown s)
  | BACKWARD =>
      mk (left s) (right s) (forward s) false (up s) (down s) (boost s)
         (backwardBeforeForward s) (rightBeforeLeft s) (upBeforeDown s)
  | LEFT =>
      mk false (right s) (forward s) (backward s) (up s) (down s) (boost s)
         (backwardBeforeForward s) (rightBeforeLeft s) (upBeforeDown s)
  | RIGHT =>
      mk (left s) false (forward s) (backward s) (up s) (down s) (boost s)
         (backwardBeforeForward s) (rightBeforeLeft s) (upBeforeDown s)
  | DOWN =>
      mk (left s) (right s) (forward s) (backward s) (up s) false (boost s)
         (backwardBeforeForward s) (rightBeforeLeft s) (upBeforeDown s)
  | UP =>
      mk (left s) (right s) (forward s) (backward s) false (down s) (boost s)
         (backwardBeforeForward s) (rightBeforeLeft s) (upBeforeDown s)
  end.

(** The "set direction D active = true/false" operation of section 4.1. *)
Definition set_direction (d : Direction) (active : bool) (s : t) : t :=
  if active then activate d s else deactivate d s.

(** *** The arbitration of an opposing pair, in the words of the spec

    Each pair lies on one local axis; its positive direction is the one
    along the positive axis (backward is local +Z, right is local +X, up is
    local +Y). *)
Inductive Pair : Set := PairZ | PairX | PairY.

Definition positive (p : Pair) : Direction :=
  match p with PairZ => BACKWARD | PairX => RIGHT | PairY => UP end.

Definition negative (p : Pair) : Direction :=
  match p with PairZ => FORWARD | PairX => LEFT | PairY => DOWN end.

Definition held (d : Direction) (s : t) : bool :=
  match d with
  | FORWARD => forward s
  | LEFT => left s
  | BACKWARD => backward s
  | RIGHT => right s
  | DOWN => down s
  | UP => up s
  end.

Definition tie (p : Pair) (s : t) : bool :=
  match p with
  | PairZ => backwardBeforeForward s
  | PairX => rightBeforeLeft s
  | PairY => upBeforeDown s
  end.

(** The direction that wins on a pair: with both held the tie-break flag
    decides, with one held that one, with none held nothing moves. *)
Definition dominant (p : Pair) (s : t) : option Direction :=
  if held (positive p) s && held (negative p) s then
    Some (if tie p s then positive p else negative p)
  else if held (positive p) s then Some (positive p)
  else if held (negative p) s then Some (negative p)
  else None.

(** A sequence of key events, oldest first. *)
Definition run (events : list (Direction * bool)) (s : t) : t :=
  fold_left (fun s e => set_direction (fst e) (snd e) s) events s.

Definition Direction_eqb (a b : Direction) : bool :=
  match a, b with
  | FORWARD, FORWARD | LEFT, LEFT | BACKWARD, BACKWARD
  | RIGHT, RIGHT | DOWN, DOWN | UP, UP => true
  | _, _ => false
  end.

(** The direction is one of the two of the pair. *)
Definition in_pair (p : Pair) (d : Direction) : bool :=
  Direction_eqb d (positive p) || Direction_eqb d (negative p).

(** The direction of the pair that was activated most recently: the one of
    the last event that activates a direction of the pair, and [recent]
    when the events activate none. *)
Definition last_activated_from (p : Pair) (recent : option Direction)
    (events : list (Direction * bool)) : option Direction :=
  fold_left
    (fun recent e =>
       if snd e && in_pair p (fst e) then Some (fst e) else recent)
    events recent.

Definition last_activated (p : Pair) (events : list (Direction * bool))
    : option Direction :=
  last_activated_from p None events.

End MovementState.

(** ** The settings the managers read

    The settings classes other than [ZoomSettings] are not part of the
    sources; the records hold what the getters called by the modelled code
    return. *)

Module Settings.

Import JS.

Record GeneralSettings : Set := mkGeneral {
  mode : ControlMode;           (* getMode() *)
  previousMode : ControlMode    (* getPreviousMode() *)
}.

Record TranslationSettings : Set := mkTranslation {
  enabled : bool;               (* isEnabled() *)
  sensitivity : number;         (* getSensitivity() *)
  boostMultiplier : number      (* getBoostMultiplier() *)
}.

Record t : Set := mk {
  general : GeneralSettings;
  translation : TranslationSettings
}.

End Settings.

(** ** The translation manager (src/managers/TranslationManager.ts) *)

Module TranslationManager.

Import JS.
Local Open Scope float_scope.

(** The receiver's state.  [dispatched] is the trace of the events handed
    to [dispatchEvent], latest first. *)
Record t : Set := mk {
  position : Three.Vector3;
  quaternion : Three.Quaternion;
  target : Three.Vector3;
  settings : Settings.t;
  movementState : MovementState.t;
  timestamp : number;
  dispatched : list Three.Event3
}.

Definition updateEvent : Three.Event3 := Three.mkEvent "update".

(** The constructor. *)
Definition new (position : Three.Vector3) (quaternion : Three.Quaternion)
    (target : Three.Vector3) (settings : Settings.t) : t :=
  mk position quaternion target settings MovementState.new 0 [].

Definition getMovementState (tm : t) : MovementState.t := movementState tm.

Definition setMovementState (s : MovementState.t) (tm : t) : t :=
  mk (position tm) (quaternion tm) (target tm) (settings tm) s
     (timestamp tm) (dispatched tm).

Definition setPosition (p : Three.Vector3) (tm : t) : t :=
  mk p (quaternion tm) (target tm) (settings tm) (movementState tm)
     (timestamp tm) (dispatched tm).

Definition setQuaternion (q : Three.Quaternion) (tm : t) : t :=
  mk (position tm) q (target tm) (settings tm) (movementState tm)
     (timestamp tm) (dispatched tm).

Definition setTarget (p : Three.Vector3) (tm : t) : t :=
  mk (position tm) (quaternion tm) p (settings tm) (movementState tm)
     (timestamp tm) (dispatched tm).

Definition dispatchEvent (e : Three.Event3) (tm : t) : t :=
  mk (position tm) (quaternion tm) (target tm) (settings tm)
     (movementState tm) (timestamp tm) (e :: dispatched tm).

Definition getMode (tm : t) : ControlMode :=
  Settings.mode (Settings.general (settings tm)).

(** [translateOnAxis(axis, distance)] *)
Definition translateOnAxis (axis : Three.Vector3) (distance : number)
    (tm : t) : t :=
  let v :=
    Three.multiplyScalar (Three.applyQuaternion axis (quaternion tm)) distance in
  let tm1 := setPosition (Three.add (position tm) v) tm in
  let tm2 :=
    if ControlMode_eqb (getMode tm1) THIRD_PERSON
    then setTarget (Three.add (target tm1) v) tm1
    else tm1 in
  dispatchEvent updateEvent tm2.

(** [translate(deltaTime)] *)
Definition translate (deltaTime : number) (tm : t) : t :=
  let state := movementState tm in
  let translation := Settings.translation (settings tm) in
  let boost :=
    if MovementState.boost state
    then Settings.boostMultiplier translation else 1 in
  let sensitivity := Settings.sensitivity translation in
  let step := deltaTime * sensitivity * boost in
  let tm1 :=
    if MovementState.backward state && MovementState.forward state then
      if MovementState.backwardBeforeForward state
      then translateOnAxis axes.z step tm
      else translateOnAxis axes.z (- step) tm
    else if MovementState.backward state then translateOnAxis axes.z step tm
    else if MovementState.forward state then translateOnAxis axes.z (- step) tm
    else tm in
  let tm2 :=
    if MovementState.right state && MovementState.left state then
      if MovementState.rightBeforeLeft state
      then translateOnAxis axes.x step tm1
      else translateOnAxis axes.x (- step) tm1
    else if MovementState.right state then translateOnAxis axes.x step tm1
    else if MovementState.left state then translateOnAxis axes.x (- step) tm1
    else tm1 in
  if MovementState.up state && MovementState.down state then
    if MovementState.upBeforeDown state
    then translateOnAxis axes.y step tm2
    else translateOnAxis axes.y (- step) tm2
  else if MovementState.up state then translateOnAxis axes.y step tm2
  else if MovementState.down state then translateOnAxis axes.y (- step) tm2
  else tm2.

(** [moveTo(position)] *)
Definition moveTo (p : Three.Vector3) (tm : t) : t :=
  let tm1 :=
    if ControlMode_eqb (getMode tm) THIRD_PERSON then
      let v := Three.sub p (target tm) in
      let tm' := setTarget p tm in
      setPosition (Three.add (position tm') v) tm'
    else setPosition p tm in
  dispatchEvent updateEvent tm1.

Definition setTimestamp (ts : number) (tm : t) : t :=
  mk (position tm) (quaternion tm) (target tm) (settings tm)
     (movementState tm) ts (dispatched tm).

(** [update(timestamp)] *)
Definition update (ts : number) (tm : t) : t :=
  let tm1 :=
    if Settings.enabled (Settings.translation (settings tm)) then
      let elapsed := (ts - timestamp tm) * MILLISECONDS_TO_SECONDS in
      translate elapsed tm
    else tm in
  setTimestamp ts tm1.

(** *** The per-tick step, in the words of the spec *)

(** Step magnitude = deltaTime x translationSensitivity x (boostMultiplier
    if the boost flag is set, else 1). *)
Definition step_length (deltaTime : number) (tm : t) : number :=
  deltaTime * Settings.sensitivity (Settings.translation (settings tm))
  * (if MovementState.boost (movementState tm)
     then Settings.boostMultiplier (Settings.translation (settings tm))
     else 1).

Definition axis_of (p : MovementState.Pair) : Three.Vector3 :=
  match p with
  | MovementState.PairZ => axes.z
  | MovementState.PairX => axes.x
  | MovementState.PairY => axes.y
  end.

Definition signed (d : Direction) (step : number) : number :=
  match d with
  | BACKWARD | RIGHT | UP => step
  | FORWARD | LEFT | DOWN => - step
  end.

(** The move of one pair: none when no direction of the pair is held, else
    one move along the pair's axis, signed by the dominant direction. *)
Definition pair_move (p : MovementState.Pair) (state : MovementState.t)
    (step : number) : list (Three.Vector3 * number) :=
  match MovementState.dominant p state with
  | Some d => [(axis_of p, signed d step)]
  | None => []
  end.

(** The moves of one tick: the Z pair, then the X pair, then the Y pair. *)
Definition moves (state : MovementState.t) (step : number)
    : list (Three.Vector3 * number) :=
  pair_move MovementState.PairZ state step
  ++ pair_move MovementState.PairX state step
  ++ pair_move MovementState.PairY state step.

Definition apply_moves (ms : list (Three.Vector3 * number)) (tm : t) : t :=
  fold_left (fun tm m => translateOnAxis (fst m) (snd m) tm) ms tm.

End TranslationManager.

(** ** The zoom settings (the source file of class [ZoomSettings]) *)

Module ZoomSettings.

Import JS.
Local Open Scope float_scope.

(** [ZoomSettingsJSON] *)
Record ZoomSettingsJSON : Set := mkJSON {
  json_enabled : bool;
  json_inverted : bool;
  json_minDistance : number;
  json_maxDistance : number;
  json_sensitivity : number
}.

(** The receiver's state; [dispatched] is the trace of dispatched events,
    latest first. *)
Record t : Set := mk {
  enabled : bool;
  inverted : bool;
  minDistance : number;
  maxDistance : number;
  sensitivity : number;
  dispatched : list Three.Event3
}.

Definition changeEvent : Three.Event3 := Three.mkEvent "change".

(** The constructor. *)
Definition new : t := mk true false 1e-6 POSITIVE_INFINITY 1 [].

Definition dispatchEvent (e : Three.Event3) (s : t) : t :=
  mk (enabled s) (inverted s) (minDistance s) (maxDistance s)
     (sensitivity s) (e :: dispatched s).

Definition isEnabled (s : t) : bool := enabled s.

Definition setEnabled (value : bool) (s : t) : t :=
  dispatchEvent changeEvent
    (mk value (inverted s) (minDistance s) (maxDistance s) (sensitivity s)
        (dispatched s)).

Definition isInverted (s : t) : bool := inverted s.

Definition setInverted (value : bool) (s : t) : t :=
  dispatchEvent changeEvent
    (mk (enabled s) value (minDistance s) (maxDistance s) (sensitivity s)
        (dispatched s)).

Definition getMinDistance (s : t) : number := minDistance s.

(** [setMinDistance(value)] *)
Definition setMinDistance (value : number) (s : t) : t :=
  dispatchEvent changeEvent
    (mk (enabled s) (inverted s)
        (Math_min (Math_max value 1e-6) POSITIVE_INFINITY)
        (maxDistance s) (sensitivity s) (dispatched s)).

Definition getMaxDistance (s : t) : number := maxDistance s.

(** [setMaxDistance(value)] *)
Definition setMaxDistance (value : number) (s : t) : t :=
  dispatchEvent changeEvent
    (mk (enabled s) (inverted s) (minDistance s)
        (Math_min (Math_max value (minDistance s)) POSITIVE_INFINITY)
        (sensitivity s) (dispatched s)).

(** [setRange(min, max)] *)
Definition setRange (min max : number) (s : t) : t :=
  dispatchEvent changeEvent
    (mk (enabled s) (inverted s) min max (sensitivity s) (dispatched s)).

Definition getSensitivity (s : t) : number := sensitivity s.

Definition setSensitivity (value : number) (s : t) : t :=
  dispatchEvent changeEvent
    (mk (enabled s) (inverted s) (minDistance s) (maxDistance s) value
        (dispatched s)).

(** [copy(settings)]: the five values are copied, nothing is dispatched. *)
Definition copy (settings : t) (s : t) : t :=
  mk (isEnabled settings) (isInverted settings) (getMinDistance settings)
     (getMaxDistance settings) (getSensitivity settings) (dispatched s).

Definition clone (s : t) : t := copy s new.

(** [fromJSON(json)] *)
Definition fromJSON (json : ZoomSettingsJSON) (s : t) : t :=
  mk (json_enabled json) (json_inverted json) (json_minDistance json)
     (or_else (json_maxDistance json) POSITIVE_INFINITY)
     (json_sensitivity json) (dispatched s).

(** [toJSON()] *)
Definition toJSON (s : t) : ZoomSettingsJSON :=
  mkJSON (enabled s) (inverted s) (minDistance s) (maxDistance s)
         (sensitivity s).

(** The invariant of the zoom range, [0 < minDistance <= maxDistance], as
    JavaScript comparisons (false as soon as a NaN is involved). *)
Definition range_ok (s : t) : bool :=
  (0 <? minDistance s) && (minDistance s <=? maxDistance s).

End ZoomSettings.

(** ** The controller (class [SpatialControls]) *)

Module SpatialControls.

Import JS.
Local Open Scope float_scope.

Section WithRotationManager.

(** The rotation manager is not part of the sources.  [R] is its private
    state (the spherical coordinates and whatever else it keeps).  Like the
    translation manager it holds references to the controller's position,
    quaternion, target and settings, and the controller forwards the events
    it dispatches; a call of one of its methods can therefore read and
    write exactly the components of [RMView]. *)
Context {R : Type}.

Record RMView : Type := mkRMView {
  rm_position : Three.Vector3;
  rm_quaternion : Three.Quaternion;
  rm_target : Three.Vector3;
  rm_settings : Settings.t;
  rm_state : R;
  rm_dispatched : list Three.Event3
}.

(** The methods of the rotation manager that the modelled code calls. *)
Variable RotationManager_update : number -> RMView -> RMView.
Variable updateSpherical : RMView -> RMView.
Variable updatePosition : RMView -> RMView.
Variable updateQuaternion : RMView -> RMView.

(** The controller together with the part of the page it touches:
    [pointerLocked] stands for
    [document.pointerLockElement === this.domElement], [hidden] for
    [document.hidden], [requestPointerLockDefined] for
    [this.domElement.requestPointerLock !== undefined] and
    [exitPointerLockDefined] for [document.exitPointerLock !== undefined];
    the three listener sets hold the event types for which the controller
    is registered on [document], on [document.body] and on its DOM element;
    [domCalls] is the trace of the pointer lock requests made, latest
    first.  Position, quaternion, target and settings
    are the objects shared with both managers; [movementState] and
    [timestamp] are the translation manager's own fields.  The strategy
    table and the last screen position, which only the keyboard and pointer
    handlers use, are left out.

    The record describes a controller that was constructed with a position,
    a quaternion and a DOM element.  The constructor also accepts none of
    them (position and quaternion default to [null]); on such a controller
    the handlers that reach the missing object raise a TypeError, which the
    record cannot express. *)
Record t : Type := mk {
  pointerLocked : bool;
  hidden : bool;
  requestPointerLockDefined : bool;
  exitPointerLockDefined : bool;
  documentListeners : gset string;
  bodyListeners : gset string;
  elementListeners : gset string;
  domCalls : list string;
  position : Three.Vector3;
  quaternion : Three.Quaternion;
  target : Three.Vector3;
  rotationManager : R;
  movementState : MovementState.t;
  timestamp : number;
  dragging : bool;
  enabled : bool;
  settings : Settings.t;
  dispatched : list Three.Event3
}.

(** Calling a method of the translation manager: it sees the shared
    objects and its own fields, and the controller's listener forwards every
    event it dispatches. *)
Definition tm_view (c : t) : TranslationManager.t :=
  TranslationManager.mk (position c) (quaternion c) (target c) (settings c)
    (movementState c) (timestamp c) [].

Definition with_translationManager
    (f : TranslationManager.t -> TranslationManager.t) (c : t) : t :=
  let tm := f (tm_view c) in
  mk (pointerLocked c) (hidden c)
     (requestPointerLockDefined c) (exitPointerLockDefined c)
     (documentListeners c) (bodyListeners c)
     (elementListeners c) (domCalls c)
     (TranslationManager.position tm) (TranslationManager.quaternion tm)
     (TranslationManager.target tm) (rotationManager c)
     (TranslationManager.movementState tm) (TranslationManager.timestamp tm)
     (dragging c) (enabled c) (TranslationManager.settings tm)
     (TranslationManager.dispatched tm ++ dispatched c).

(** Calling a method of the rotation manager. *)
Definition rm_view (c : t) : RMView :=
  mkRMView (position c) (quaternion c) (target c) (settings c)
    (rotationManager c) [].

Definition with_rotationManager (f : RMView -> RMView) (c : t) : t :=
  let rm := f (rm_view c) in
  mk (pointerLocked c) (hidden c)
     (requestPointerLockDefined c) (exitPointerLockDefined c)
     (documentListeners c) (bodyListeners c)
     (elementListeners c) (domCalls c)
     (rm_position rm) (rm_quaternion rm) (rm_target rm) (rm_state rm)
     (movementState c) (timestamp c)
     (dragging c) (enabled c) (rm_settings rm)
     (rm_dispatched rm ++ dispatched c).

Definition setMovementState (s : MovementState.t) (c : t) : t :=
  mk (pointerLocked c) (hidden c)
     (requestPointerLockDefined c) (exitPointerLockDefined c)
     (documentListeners c) (bodyListeners c)
     (elementListeners c) (domCalls c) (position c) (quaternion c) (target c)
     (rotationManager c) s (timestamp c) (dragging c) (enabled c)
     (settings c) (dispatched c).

Definition setListeners (doc body elem : gset string) (c : t) : t :=
  mk (pointerLocked c) (hidden c)
     (requestPointerLockDefined c) (exitPointerLockDefined c)
     doc body elem (domCalls c) (position c)
     (quaternion c) (target c) (rotationManager c) (movementState c)
     (timestamp c) (dragging c) (enabled c) (settings c) (dispatched c).

Definition setPositionTarget (p tg : Three.Vector3) (c : t) : t :=
  mk (pointerLocked c) (hidden c)
     (requestPointerLockDefined c) (exitPointerLockDefined c)
     (documentListeners c) (bodyListeners c)
     (elementListeners c) (domCalls c) p (quaternion c) tg
     (rotationManager c) (movementState c) (timestamp c) (dragging c)
     (enabled c) (settings c) (dispatched c).

(** [setPointerLocked(locked)]: a request is made only where the element,
    respectively the document, offers the method; it is recorded, and the
    page answers it later with a [pointerlockchange] event. *)
Definition setPointerLocked (locked : bool) (c : t) : t :=
  let calls :=
    if locked then
      if negb (pointerLocked c) && requestPointerLockDefined c
      then "requestPointerLock"%string :: domCalls c else domCalls c
    else if exitPointerLockDefined c
      then "exitPointerLock"%string :: domCalls c else domCalls c in
  mk (pointerLocked c) (hidden c)
     (requestPointerLockDefined c) (exitPointerLockDefined c)
     (documentListeners c) (bodyListeners c)
     (elementListeners c) calls (position c) (quaternion c) (target c)
     (rotationManager c) (movementState c) (timestamp c) (dragging c)
     (enabled c) (settings c) (dispatched c).

Definition setEnabledFlag (b : bool) (c : t) : t :=
  mk (pointerLocked c) (hidden c)
     (requestPointerLockDefined c) (exitPointerLockDefined c)
     (documentListeners c) (bodyListeners c)
     (elementListeners c) (domCalls c) (position c) (quaternion c) (target c)
     (rotationManager c) (movementState c) (timestamp c) (dragging c) b
     (settings c) (dispatched c).

(** [setEnabled(enabled)] *)
Definition setEnabled (enable : bool) (c : t) : t :=
  let c1 := setMovementState (MovementState.reset (movementState c)) c in
  let c2 :=
    if enable && negb (enabled c1) then
      setListeners
        (documentListeners c1 ∪ {[ "pointerlockchange"; "visibilitychange" ]})
        (bodyListeners c1 ∪ {[ "keyup"; "keydown" ]})
        (elementListeners c1 ∪
           {[ "mousedown"; "mouseup"; "mouseleave"; "touchstart"; "touchend";
              "wheel" ]})
        c1
    else if negb enable && enabled c1 then
      setListeners
        (documentListeners c1 ∖ {[ "pointerlockchange"; "visibilitychange" ]})
        (bodyListeners c1 ∖ {[ "keyup"; "keydown" ]})
        (elementListeners c1 ∖
           {[ "mousedown"; "mouseup"; "mouseleave"; "touchstart"; "touchend";
              "wheel"; "mousemove"; "touchmove" ]})
        c1
    else c1 in
  setEnabledFlag enable (setPointerLocked false c2).

(** [handlePointerLockEvent()] *)
Definition handlePointerLockEvent (c : t) : t :=
  if pointerLocked c then
    setListeners (documentListeners c) (bodyListeners c)
      (elementListeners c ∪ {[ "mousemove" ]}) c
  else
    setListeners (documentListeners c) (bodyListeners c)
      (elementListeners c ∖ {[ "mousemove" ]}) c.

(** [handleVisibilityChangeEvent()] *)
Definition handleVisibilityChangeEvent (c : t) : t :=
  if hidden c then
    let c1 := setMovementState (MovementState.reset (movementState c)) c in
    setListeners (documentListeners c1) (bodyListeners c1)
      (elementListeners c1 ∖ {[ "mousemove"; "touchmove" ]}) c1
  else c.

(** [onSettingsChanged(event)] *)
Definition onSettingsChanged (c : t) : t :=
  let general := Settings.general (settings c) in
  let c1 :=
    if negb (ControlMode_eqb (Settings.mode general)
                             (Settings.previousMode general)) then
      if ControlMode_eqb (Settings.mode general) THIRD_PERSON then
        (* Switch to third person. *)
        let v := target c in
        setPositionTarget (Three.sub (position c) v) (position c) c
      else
        (* Switch to first person. *)
        setPositionTarget (target c)
          (Three.applyQuaternion (Three.mkVector3 0 0 (-1)) (quaternion c)) c
    else c in
  with_rotationManager
    (fun rm => updateQuaternion (updatePosition (updateSpherical rm))) c1.

(** [update(timestamp)] *)
Definition update (ts : number) (c : t) : t :=
  let c1 := with_rotationManager (RotationManager_update ts) c in
  with_translationManager (TranslationManager.update ts) c1.

(** [dispose()] *)
Definition dispose (c : t) : t := setEnabled false c.

End WithRotationManager.

Arguments RMView : clear implicits.
Arguments t : clear implicits.

End SpatialControls.

(** ** Concrete scenarios *)

Module Scenarios.

Import JS.
Local Open Scope float_scope.

(** The settings of the scenarios: translation enabled, the previous mode
    first-person. *)
Definition scenario_settings (m : ControlMode) (sensitivity boost : number)
    : Settings.t :=
  Settings.mk (Settings.mkGeneral m FIRST_PERSON)
    (Settings.mkTranslation true sensitivity boost).

(** No direction held, boost off. *)
Definition released : MovementState.t := MovementState.released.

(** A translation manager at the origin with the identity orientation and
    target (0,0,-1), boost multiplier 1. *)
Definition scenario (m : ControlMode) (sensitivity : number)
    (state : MovementState.t) : TranslationManager.t :=
  TranslationManager.setMovementState state
    (TranslationManager.new (Three.mkVector3 0 0 0) Three.identity
       (Three.mkVector3 0 0 (-1)) (scenario_settings m sensitivity 1)).

(** A manager with translation disabled and forward held, 16 ms after the
    previous frame. *)
Definition disabled_scenario : TranslationManager.t :=
  TranslationManager.setTimestamp 1000
    (TranslationManager.setMovementState
       (MovementState.activate FORWARD released)
       (TranslationManager.new (Three.mkVector3 1 2 3) Three.identity
          (Three.mkVector3 1 2 2)
          (Settings.mk (Settings.mkGeneral FIRST_PERSON FIRST_PERSON)
             (Settings.mkTranslation false 2 4)))).

(** A rotation manager without private state whose update turns the object
    half a turn about the Y axis. *)
Definition half_turn (_ : number) (r : SpatialControls.RMView unit)
    : SpatialControls.RMView unit :=
  SpatialControls.mkRMView (SpatialControls.rm_position r)
    (Three.mkQuaternion 0 1 0 0) (SpatialControls.rm_target r)
    (SpatialControls.rm_settings r) (SpatialControls.rm_state r)
    (SpatialControls.rm_dispatched r).

(** Enabled controls on a visible page that offers the pointer lock
    interface and has not locked the pointer, at the origin with the
    identity orientation, first-person mode, sensitivity 2, with the given
    movement state. *)
Definition controls (state : MovementState.t) : SpatialControls.t unit :=
  SpatialControls.mk false false true true
     {[ "pointerlockchange"; "visibilitychange" ]}
     {[ "keyup"; "keydown" ]}
     {[ "mousedown"; "mouseup"; "mouseleave"; "touchstart"; "touchend";
        "wheel"; "mousemove" ]}
     []
     (Three.mkVector3 0 0 0) Three.identity (Three.mkVector3 0 0 (-1)) tt
     state 0 false true (scenario_settings FIRST_PERSON 2 1) [].

End Scenarios.

(** ** Quantities of one tick *)

Module Tick.

Import JS.
Local Open Scope float_scope.

(** A pair is active when one of its two directions is held. *)
Definition active (p : MovementState.Pair) (s : MovementState.t) : bool :=
  MovementState.held (MovementState.positive p) s
  || MovementState.held (MovementState.negative p) s.

(** The number of active pairs, from 0 to 3. *)
Definition active_pairs (s : MovementState.t) : nat :=
  length
    (filter (fun p => active p s)
       [MovementState.PairZ; MovementState.PairX; MovementState.PairY]).

(** The world-space vector of a move: the local axis rotated by the
    quaternion and scaled by the signed distance, as [translateOnAxis]
    computes it. *)
Definition delta (q : Three.Quaternion) (m : Three.Vector3 * number)
    : Three.Vector3 :=
  Three.multiplyScalar (Three.applyQuaternion (fst m) q) (snd m).

(** No direction is held. *)
Definition idle (s : MovementState.t) : bool :=
  negb (MovementState.forward s || MovementState.backward s
        || MovementState.left s || MovementState.right s
        || MovementState.up s || MovementState.down s).

End Tick.

(** ** Sequences of calls on the zoom settings *)

Module ZoomCalls.

Import JS.

(** The methods of [ZoomSettings] that change the receiver. *)
Inductive Call : Set :=
| SetEnabled (value : bool)
| SetInverted (value : bool)
| SetMinDistance (value : number)
| SetMaxDistance (value : number)
| SetRange (min max : number)
| SetSensitivity (value : number)
| Copy (settings : ZoomSettings.t)
| FromJSON (json : ZoomSettings.ZoomSettingsJSON).

Definition call (c : Call) (s : ZoomSettings.t) : ZoomSettings.t :=
  match c with
  | SetEnabled v => ZoomSettings.setEnabled v s
  | SetInverted v => ZoomSettings.setInverted v s
  | SetMinDistance v => ZoomSettings.setMinDistance v s
  | SetMaxDistance v => ZoomSettings.setMaxDistance v s
  | SetRange a b => ZoomSettings.setRange a b s
  | SetSensitivity v => ZoomSettings.setSensitivity v s
  | Copy o => ZoomSettings.copy o s
  | FromJSON j => ZoomSettings.fromJSON j s
  end.

(** The calls in the order they are made. *)
Definition run (cs : list Call) (s : ZoomSettings.t) : ZoomSettings.t :=
  fold_left (fun s c => call c s) cs s.

(** The setters, as opposed to [copy] and [fromJSON]. *)
Definition is_setter (c : Call) : bool :=
  match c with
  | Copy _ | FromJSON _ => false
  | _ => true
  end.

End ZoomCalls.

(** ** The event types the controller listens to *)

Module Listeners.

(** On [document]. *)
Definition documentTypes : gset string :=
  {[ "pointerlockchange"; "visibilitychange" ]}.

(** On [document.body]. *)
Definition bodyTypes : gset string := {[ "keyup"; "keydown" ]}.

(** On the DOM element, while the controller is enabled. *)
Definition elementTypes : gset string :=
  {[ "mousedown"; "mouseup"; "mouseleave"; "touchstart"; "touchend";
     "wheel" ]}.

(** On the DOM element, during a drag, a touch or a pointer lock. *)
Definition moveTypes : gset string := {[ "mousemove"; "touchmove" ]}.

(** All of them, and the "change" event of the settings. *)
Definition handledTypes : gset string :=
  documentTypes ∪ bodyTypes ∪ elementTypes ∪ moveTypes ∪ {[ "change" ]}.

End Listeners.

(** ** The controller's input handlers (class [SpatialControls]) *)

Module Input.

Import JS.
Local Open Scope float_scope.

(** [Math.sign(x)] (ECMAScript 21.3.2.29): NaN and the two zeros are given
    back, every other number gives 1 or -1. *)
Definition Math_sign (x : number) : number :=
  if is_nan x then nan
  else if x <? 0 then -1
  else if 0 <? x then 1
  else x.

(** The enumerations [PointerBehaviour], [PointerButton] and [Action] are
    not part of the sources.  The handlers name the behaviours DEFAULT and
    LOCK, [LOCK_HOLD] stands for every other behaviour; they name the
    buttons MAIN, AUXILIARY and SECONDARY, [OTHER_BUTTON] stands for every
    other value of [event.button]; the actions are the keys of the strategy
    table the constructor builds. *)
Inductive PointerBehaviour : Set := DEFAULT | LOCK | LOCK_HOLD.

Inductive PointerButton : Set := MAIN | AUXILIARY | SECONDARY | OTHER_BUTTON.

Inductive Action : Set :=
| MOVE_FORWARD | MOVE_LEFT | MOVE_BACKWARD | MOVE_RIGHT | MOVE_DOWN | MOVE_UP
| ZOOM_OUT | ZOOM_IN | BOOST.

Definition PointerBehaviour_eqb (a b : PointerBehaviour) : bool :=
  match a, b with
  | DEFAULT, DEFAULT | LOCK, LOCK | LOCK_HOLD, LOCK_HOLD => true
  | _, _ => false
  end.

(** A touch point and a DOM event, with the fields the handlers read. *)
Record Touch : Set := mkTouch { touch_screenX : number; touch_screenY : number }.

Record Event : Set := mkEvent {
  type : string;
  button : PointerButton;
  screenX : number;
  screenY : number;
  movementX : number;
  movementY : number;
  keyCode : N;
  deltaY : number;
  touches : list Touch
}.

(** The settings the handlers read besides the ones of [Settings]: the
    pointer behaviour and sensitivity, the two rotation sensitivities and
    the key bindings (key code to action). *)
Record InputSettings : Type := mkInputSettings {
  behaviour : PointerBehaviour;        (* pointer.getBehaviour() *)
  pointerSensitivity : number;         (* pointer.getSensitivity() *)
  sensitivityX : number;               (* rotation.getSensitivityX() *)
  sensitivityY : number;               (* rotation.getSensitivityY() *)
  keyBindings : gmap N Action
}.

(** The strategies the constructor puts into the table: a movement strategy
    holds the movement state and a direction, the boost strategy the
    movement state, a zoom strategy the rotation manager and a flag. *)
Inductive Strategy : Set :=
| MovementStrategy (d : Direction)
| ZoomStrategy (zoomIn : bool)
| BoostStrategy.

(** The table of the constructor. *)
Definition strategies (a : Action) : Strategy :=
  match a with
  | MOVE_FORWARD => MovementStrategy FORWARD
  | MOVE_LEFT => MovementStrategy LEFT
  | MOVE_BACKWARD => MovementStrategy BACKWARD
  | MOVE_RIGHT => MovementStrategy RIGHT
  | MOVE_DOWN => MovementStrategy DOWN
  | MOVE_UP => MovementStrategy UP
  | ZOOM_OUT => ZoomStrategy false
  | ZOOM_IN => ZoomStrategy true
  | BOOST => BoostStrategy
  end.

Section WithCollaborators.

Context {R : Type}.

(** The methods of the rotation manager and of the strategy classes, none
    of which is part of the sources; they are taken to return.  What a
    strategy acts on is fixed in [execute] below. *)
Variable adjustSpherical :
  number -> number -> SpatialControls.RMView R -> SpatialControls.RMView R.
Variable updateSpherical : SpatialControls.RMView R -> SpatialControls.RMView R.
Variable updatePosition : SpatialControls.RMView R -> SpatialControls.RMView R.
Variable updateQuaternion : SpatialControls.RMView R -> SpatialControls.RMView R.
Variable zoom : number -> SpatialControls.RMView R -> SpatialControls.RMView R.
Variable MovementStrategy_execute :
  Direction -> bool -> MovementState.t -> MovementState.t.
Variable BoostStrategy_execute : bool -> MovementState.t -> MovementState.t.
Variable ZoomStrategy_execute :
  bool -> bool -> SpatialControls.RMView R -> SpatialControls.RMView R.

(** The controller with the rest of what the handlers use: the last screen
    position, the settings above, and the trace of the events whose default
    action a handler prevented, latest first. *)
Record t : Type := mk {
  controls : SpatialControls.t R;
  lastScreenPosition : number * number;
  inputSettings : InputSettings;
  defaultPrevented : list string
}.

Definition setControls (c : SpatialControls.t R) (s : t) : t :=
  mk c (lastScreenPosition s) (inputSettings s) (defaultPrevented s).

(** Two states of the controller agree on the page and on the controller's
    own flags: the part no manager and no strategy can reach. *)
Definition same_page (c' c : SpatialControls.t R) : Prop :=
  SpatialControls.pointerLocked c' = SpatialControls.pointerLocked c
  /\ SpatialControls.hidden c' = SpatialControls.hidden c
  /\ SpatialControls.documentListeners c' = SpatialControls.documentListeners c
  /\ SpatialControls.bodyListeners c' = SpatialControls.bodyListeners c
  /\ SpatialControls.elementListeners c' = SpatialControls.elementListeners c
  /\ SpatialControls.domCalls c' = SpatialControls.domCalls c
  /\ SpatialControls.dragging c' = SpatialControls.dragging c
  /\ SpatialControls.enabled c' = SpatialControls.enabled c.

(** Two states agree on the pose and on everything else the rotation
    manager can reach. *)
Definition same_pose (c' c : SpatialControls.t R) : Prop :=
  SpatialControls.position c' = SpatialControls.position c
  /\ SpatialControls.quaternion c' = SpatialControls.quaternion c
  /\ SpatialControls.target c' = SpatialControls.target c
  /\ SpatialControls.rotationManager c' = SpatialControls.rotationManager c
  /\ SpatialControls.settings c' = SpatialControls.settings c
  /\ SpatialControls.dispatched c' = SpatialControls.dispatched c.

Definition setLastScreenPosition (x y : number) (s : t) : t :=
  mk (controls s) (x, y) (inputSettings s) (defaultPrevented s).

(** [event.preventDefault()] *)
Definition preventDefault (event : Event) (s : t) : t :=
  mk (controls s) (lastScreenPosition s) (inputSettings s)
     (type event :: defaultPrevented s).

Definition setDragging (b : bool) (c : SpatialControls.t R)
    : SpatialControls.t R :=
  SpatialControls.mk (SpatialControls.pointerLocked c)
    (SpatialControls.hidden c) (SpatialControls.requestPointerLockDefined c)
    (SpatialControls.exitPointerLockDefined c)
    (SpatialControls.documentListeners c)
    (SpatialControls.bodyListeners c) (SpatialControls.elementListeners c)
    (SpatialControls.domCalls c) (SpatialControls.position c)
    (SpatialControls.quaternion c) (SpatialControls.target c)
    (SpatialControls.rotationManager c) (SpatialControls.movementState c)
    (SpatialControls.timestamp c) b (SpatialControls.enabled c)
    (SpatialControls.settings c) (SpatialControls.dispatched c).

(** [domElement.addEventListener(type, this)] and
    [domElement.removeEventListener(type, this)] *)
Definition addElementListener (ty : string) (c : SpatialControls.t R)
    : SpatialControls.t R :=
  SpatialControls.setListeners (SpatialControls.documentListeners c)
    (SpatialControls.bodyListeners c)
    (SpatialControls.elementListeners c ∪ {[ ty ]}) c.

Definition removeElementListener (ty : string) (c : SpatialControls.t R)
    : SpatialControls.t R :=
  SpatialControls.setListeners (SpatialControls.documentListeners c)
    (SpatialControls.bodyListeners c)
    (SpatialControls.elementListeners c ∖ {[ ty ]}) c.

(** [rotationManager.adjustSpherical(a, b).updateQuaternion()] *)
Definition rotate (a b : number) (s : t) : t :=
  setControls
    (SpatialControls.with_rotationManager
       (fun rm => updateQuaternion (adjustSpherical a b rm)) (controls s))
    s.

(** [handlePointerMoveEvent(event)] *)
Definition handlePointerMoveEvent (event : Event) (s : t) : t :=
  let pointerBehaviour := behaviour (inputSettings s) in
  let pointerSensitivity := pointerSensitivity (inputSettings s) in
  if SpatialControls.pointerLocked (controls s) then
    if PointerBehaviour_eqb pointerBehaviour LOCK
       || SpatialControls.dragging (controls s)
    then
      rotate
        (movementX event * pointerSensitivity * sensitivityX (inputSettings s))
        (movementY event * pointerSensitivity * sensitivityY (inputSettings s))
        s
    else s
  else
    (* Compensate for inconsistent web APIs. *)
    let movementX := screenX event - fst (lastScreenPosition s) in
    let movementY := screenY event - snd (lastScreenPosition s) in
    let s1 := setLastScreenPosition (screenX event) (screenY event) s in
    rotate
      (movementX * pointerSensitivity * sensitivityX (inputSettings s1))
      (movementY * pointerSensitivity * sensitivityY (inputSettings s1))
      s1.

(** [handleTouchMoveEvent(event)]; [None] is the TypeError of reading a
    coordinate of [event.touches[0]] when the list is empty. *)
Definition handleTouchMoveEvent (event : Event) (s : t) : option t :=
  let pointerSensitivity := pointerSensitivity (inputSettings s) in
  match touches event with
  | [] => None
  | touch :: _ =>
      let movementX := touch_screenX touch - fst (lastScreenPosition s) in
      let movementY := touch_screenY touch - snd (lastScreenPosition s) in
      let s1 :=
        setLastScreenPosition (touch_screenX touch) (touch_screenY touch) s in
      Some
        (rotate
           (movementX * pointerSensitivity * sensitivityX (inputSettings s1))
           (movementY * pointerSensitivity * sensitivityY (inputSettings s1))
           s1)
  end.

(** [handleMainPointerButton(event, pressed)] *)
Definition handleMainPointerButton (event : Event) (pressed : bool) (s : t)
    : t :=
  let s1 := setControls (setDragging pressed (controls s)) s in
  if negb (PointerBehaviour_eqb (behaviour (inputSettings s1)) DEFAULT) then
    setControls (SpatialControls.setPointerLocked true (controls s1)) s1
  else if pressed then
    let s2 := setLastScreenPosition (screenX event) (screenY event) s1 in
    setControls (addElementListener "mousemove" (controls s2)) s2
  else
    setControls (removeElementListener "mousemove" (controls s1)) s1.

(** [handleAuxiliaryPointerButton] and [handleSecondaryPointerButton] have
    empty bodies. *)
Definition handleAuxiliaryPointerButton (event : Event) (pressed : bool)
    (s : t) : t := s.

Definition handleSecondaryPointerButton (event : Event) (pressed : bool)
    (s : t) : t := s.

(** [handlePointerButtonEvent(event, pressed)] *)
Definition handlePointerButtonEvent (event : Event) (pressed : bool) (s : t)
    : t :=
  let s1 := preventDefault event s in
  match button event with
  | MAIN => handleMainPointerButton event pressed s1
  | AUXILIARY => handleAuxiliaryPointerButton event pressed s1
  | SECONDARY => handleSecondaryPointerButton event pressed s1
  | OTHER_BUTTON => s1
  end.

(** [handlePointerLeaveEvent(event)] *)
Definition handlePointerLeaveEvent (event : Event) (s : t) : t :=
  setControls (removeElementListener "mousemove" (controls s)) s.

(** [handleTouchEvent(event, start)]; [None] is the TypeError of a touch
    start without a touch point. *)
Definition handleTouchEvent (event : Event) (start : bool) (s : t)
    : option t :=
  (* Don't produce mouse events. *)
  let s1 := preventDefault event s in
  if start then
    match touches event with
    | [] => None
    | touch :: _ =>
        let s2 :=
          setLastScreenPosition (touch_screenX touch) (touch_screenY touch) s1 in
        Some (setControls (addElementListener "touchmove" (controls s2)) s2)
    end
  else Some (setControls (removeElementListener "touchmove" (controls s1)) s1).

(** Modelled from the spec: the strategy classes are not part of the
    sources, which only show the constructor hand the movement state to the
    movement and boost strategies and the rotation manager to the zoom
    strategies.  Section 4.4: "Movement strategies set the corresponding
    MovementState flag.  The boost strategy sets the boost flag.  Zoom
    strategies, on activation, invoke a single zoom call against
    RotationManager".  Accordingly [strategy.execute(flag)] acts on the
    movement state for a movement or boost strategy and on the rotation
    manager for a zoom strategy; what it does there is left to the three
    functions above. *)
Definition execute (strategy : Strategy) (flag : bool)
    (c : SpatialControls.t R) : SpatialControls.t R :=
  match strategy with
  | MovementStrategy d =>
      SpatialControls.setMovementState
        (MovementStrategy_execute d flag (SpatialControls.movementState c)) c
  | BoostStrategy =>
      SpatialControls.setMovementState
        (BoostStrategy_execute flag (SpatialControls.movementState c)) c
  | ZoomStrategy zoomIn =>
      SpatialControls.with_rotationManager (ZoomStrategy_execute zoomIn flag) c
  end.

(** [handleKeyboardEvent(event, pressed)] *)
Definition handleKeyboardEvent (event : Event) (pressed : bool) (s : t) : t :=
  match keyBindings (inputSettings s) !! keyCode event with
  | Some action =>
      let s1 := preventDefault event s in
      setControls (execute (strategies action) pressed (controls s1)) s1
  | None => s
  end.

(** [handleWheelEvent(event)] *)
Definition handleWheelEvent (event : Event) (s : t) : t :=
  setControls
    (SpatialControls.with_rotationManager (zoom (Math_sign (deltaY event)))
       (controls s))
    s.

(** [handleEvent(event)].  [None] is the TypeError that the touch handlers
    raise themselves on an empty touch list.  It is the only error the
    model has: the errors of a controller constructed without a position, a
    quaternion or a DOM element, and errors inside the rotation manager or
    a strategy, are outside it (see the record of the controller and the
    collaborators above), so a result [Some] says what the handler does on
    a fully constructed controller whose collaborators return, not that the
    program cannot raise. *)
Definition handleEvent (event : Event) (s : t) : option t :=
  if String.eqb (type event) "mousemove" then
    Some (handlePointerMoveEvent event s)
  else if String.eqb (type event) "touchmove" then
    handleTouchMoveEvent event s
  else if String.eqb (type event) "mousedown" then
    Some (handlePointerButtonEvent event true s)
  else if String.eqb (type event) "mouseup" then
    Some (handlePointerButtonEvent event false s)
  else if String.eqb (type event) "mouseleave" then
    Some (handlePointerLeaveEvent event s)
  else if String.eqb (type event) "touchstart" then
    handleTouchEvent event true s
  else if String.eqb (type event) "touchend" then
    handleTouchEvent event false s
  else if String.eqb (type event) "keydown" then
    Some (handleKeyboardEvent event true s)
  else if String.eqb (type event) "keyup" then
    Some (handleKeyboardEvent event false s)
  else if String.eqb (type event) "wheel" then
    Some (handleWheelEvent event s)
  else if String.eqb (type event) "pointerlockchange" then
    Some (setControls (SpatialControls.handlePointerLockEvent (controls s)) s)
  else if String.eqb (type event) "visibilitychange" then
    Some
      (setControls (SpatialControls.handleVisibilityChangeEvent (controls s)) s)
  else if String.eqb (type event) "change" then
    Some
      (setControls
         (SpatialControls.onSettingsChanged updateSpherical updatePosition
            updateQuaternion (controls s))
         s)
  else Some s.

End WithCollaborators.

Arguments t : clear implicits.

End Input.

(** ** Scenarios of the input handlers *)

Module InputScenarios.

Import JS.
Local Open Scope float_scope.

(** A rotation manager and strategies that do nothing. *)
Definition idle_rotation (r : SpatialControls.RMView unit)
    : SpatialControls.RMView unit := r.

(** The controller of the scenarios with the default pointer behaviour and
    the keys W (87) and S (83) bound to forward and backward. *)
Definition input (b : Input.PointerBehaviour) : Input.t unit :=
  Input.mk (Scenarios.controls MovementState.released) (0, 0)
    (Input.mkInputSettings b 1 1 1
       (<[ 87%N := Input.MOVE_FORWARD ]>
          (<[ 83%N := Input.MOVE_BACKWARD ]> ∅)))
    [].

(** An event of the given type with the main button at screen position
    (x, y), without a touch point. *)
Definition pointer (ty : string) (x y : number) : Input.Event :=
  Input.mkEvent ty Input.MAIN x y 0 0 0%N 0 [].

(** A touch event of the given type with one touch point at (x, y). *)
Definition touch (ty : string) (x y : number) : Input.Event :=
  Input.mkEvent ty Input.MAIN 0 0 0 0 0%N 0 [Input.mkTouch x y].

End InputScenarios.

(** * Properties *)

Import Scenarios.

(** ** Order facts on binary64 numbers

    The comparisons of primitive floats are specified by [SFcompare] on the
    IEEE 754 view [Prim2SF] of a number. *)

Section FloatOrder.
Local Open Scope float_scope.

(** Swapping the arguments of a comparison mirrors its result. *)
Lemma SFcompare_antisym (a b : spec_float) :
  SFcompare b a = option_map CompOpp (SFcompare a b).
Proof.
  destruct a as [sa|sa| |sa ma ea], b as [sb|sb| |sb mb eb]; simpl;
    try reflexivity; try (destruct sa; reflexivity); try (destruct sb; reflexivity);
    try (destruct sa, sb; reflexivity).
  destruct sa, sb; simpl; try reflexivity; f_equal.
  - rewrite (Z.compare_antisym ea eb).
    destruct (ea ?= eb)%Z; simpl; try reflexivity.
    f_equal. apply (Pos.compare_antisym ma mb).
  - rewrite (Z.compare_antisym ea eb).
    destruct (ea ?= eb)%Z; simpl; try reflexivity.
    apply (Pos.compare_antisym ma mb).
Qed.

(** Every number but NaN compares equal to itself. *)
Lemma SFcompare_refl (a : spec_float) :
  a <> S754_nan -> SFcompare a a = Some Eq.
Proof.
  destruct a as [sa|sa| |sa ma ea]; simpl; intros H; try congruence.
  - destruct sa; reflexivity.
  - destruct sa; rewrite Z.compare_refl; f_equal.
    + change (Pos.compare_cont Eq ma ma) with (Pos.compare ma ma).
      now rewrite Pos.compare_refl.
    + apply Pos.compare_refl.
Qed.

(** Only a NaN makes two numbers incomparable. *)
Lemma SFcompare_None (a b : spec_float) :
  SFcompare a b = None -> a = S754_nan \/ b = S754_nan.
Proof.
  destruct a as [sa|sa| |sa ma ea], b as [sb|sb| |sb mb eb]; simpl; auto;
    discriminate.
Qed.

(** [is_nan] recognises exactly the NaN of the IEEE 754 view. *)
Lemma is_nan_Prim2SF (x : float) :
  is_nan x = false <-> Prim2SF x <> S754_nan.
Proof.
  split.
  - intros H. unfold Prim2SF. rewrite H.
    destruct (is_zero x); [discriminate|].
    destruct (is_infinity x); [discriminate|].
    destruct (Z.frexp x) as [r e].
    destruct (shr_fexp _ _ _ _ _) as [shr e'].
    destruct (shr_m shr); discriminate.
  - intros H. unfold is_nan. rewrite FloatAxioms.eqb_spec. unfold SFeqb.
    rewrite (SFcompare_refl _ H). reflexivity.
Qed.

(** [<=] is reflexive away from NaN. *)
Lemma leb_refl (x : float) : is_nan x = false -> (x <=? x) = true.
Proof.
  intros H. rewrite FloatAxioms.leb_spec. unfold SFleb.
  apply is_nan_Prim2SF in H. rewrite (SFcompare_refl _ H). reflexivity.
Qed.

(** Away from NaN the order is total: not [x < y] gives [y <= x]. *)
Lemma leb_of_not_ltb (x y : float) :
  is_nan x = false -> is_nan y = false -> (x <? y) = false -> (y <=? x) = true.
Proof.
  intros Hx Hy. rewrite FloatAxioms.ltb_spec, FloatAxioms.leb_spec. unfold SFltb, SFleb.
  rewrite (SFcompare_antisym (Prim2SF x) (Prim2SF y)).
  destruct (SFcompare (Prim2SF x) (Prim2SF y)) as [[]|] eqn:E; simpl;
    try reflexivity; try discriminate.
  apply SFcompare_None in E. apply is_nan_Prim2SF in Hx, Hy. tauto.
Qed.

(** Nothing is above positive infinity. *)
Lemma ltb_infinity (x : float) : (infinity <? x) = false.
Proof.
  rewrite FloatAxioms.ltb_spec. unfold SFltb.
  change (Prim2SF infinity) with (S754_infinity false).
  destruct (Prim2SF x) as [s|s| |s m e]; simpl; try reflexivity.
  destruct s; reflexivity.
Qed.

(** What is at least a positive finite number is above zero. *)
Lemma ltb_zero_of_leb_positive (c x : float) (m : positive) (e : Z) :
  Prim2SF c = S754_finite false m e -> (c <=? x) = true -> (0 <? x) = true.
Proof.
  intros Hc. rewrite FloatAxioms.leb_spec, FloatAxioms.ltb_spec, Hc. unfold SFleb, SFltb.
  change (Prim2SF 0) with (S754_zero false).
  destruct (Prim2SF x) as [s|s| |s mx ex]; simpl; try discriminate.
  - destruct s; [discriminate | reflexivity].
  - destruct s; [discriminate | reflexivity].
Qed.

(** A comparison that holds involves no NaN. *)
Lemma is_nan_of_ltb x y :
  (x <? y) = true -> is_nan x = false /\ is_nan y = false.
Proof.
  rewrite FloatAxioms.ltb_spec. unfold SFltb. intros H.
  split; apply is_nan_Prim2SF; intros E; rewrite E in H; simpl in H;
    try discriminate.
  destruct (Prim2SF x); discriminate.
Qed.

End FloatOrder.

(** ** The movement state *)

Section MovementStateProperties.

Import MovementState.

(** An event changes the tie-break flag of a pair only when it activates a
    direction of the pair, and then the flag records that direction. *)
Lemma tie_set_direction (p : Pair) (d : Direction) (a : bool) (s : t) :
  tie p (set_direction d a s)
  = if a && in_pair p d then Direction_eqb d (positive p) else tie p s.
Proof.
  destruct s as [l r f b u dn bo bbf rbl ubd].
  destruct p, d, a; reflexivity.
Qed.

(** After any sequence of events the tie-break flag of a pair records the
    direction of the pair that was activated most recently. *)
Lemma tie_run (p : Pair) (events : list (Direction * bool)) :
  forall (s : t) (recent : option Direction),
  (forall d, recent = Some d ->
     in_pair p d = true /\ tie p s = Direction_eqb d (positive p)) ->
  forall d, last_activated_from p recent events = Some d ->
  in_pair p d = true /\ tie p (run events s) = Direction_eqb d (positive p).
Proof.
  induction events as [|[d0 a] events IH]; intros s recent Hrec d Hlast.
  - simpl in *. auto.
  - change (run ((d0, a) :: events) s)
      with (run events (set_direction d0 a s)).
    unfold last_activated_from in Hlast. simpl in Hlast.
    apply (IH (set_direction d0 a s)
              (if a && in_pair p d0 then Some d0 else recent)); [|exact Hlast].
    intros d' Hd'. rewrite tie_set_direction.
    destruct (a && in_pair p d0) eqn:E.
    + injection Hd' as <-. apply andb_true_iff in E. tauto.
    + auto.
Qed.

(** With both directions of a pair held, the dominant one is the direction
    the tie-break flag records. *)
Lemma dominant_last_activated (p : Pair) (d : Direction)
    (events : list (Direction * bool)) (s : t) :
  last_activated p events = Some d ->
  held (positive p) (run events s) = true ->
  held (negative p) (run events s) = true ->
  dominant p (run events s) = Some d.
Proof.
  intros Hlast Hp Hn.
  destruct (tie_run p events s None) with (d := d) as [Hin Ht];
    [discriminate | exact Hlast |].
  unfold dominant. rewrite Hp, Hn, Ht. simpl.
  destruct p, d; simpl in Hin; try discriminate; reflexivity.
Qed.

End MovementStateProperties.

(** ** The translation manager *)

Section TranslationManagerProperties.

Import TranslationManager.
Local Open Scope float_scope.

(** The source's [translate] performs exactly the moves the spec's
    arbitration prescribes, in the order Z, X, Y. *)
Lemma translate_moves (dt : JS.number) (tm : t) :
  translate dt tm
  = apply_moves (moves (movementState tm) (step_length dt tm)) tm.
Proof.
  destruct tm as [pos q tg st ms ts ev].
  destruct ms as [l r f b u d bo bbf rbl ubd].
  destruct l, r, f, b, u, d, bbf, rbl, ubd; reflexivity.
Qed.

(** Every move of a tick is along one of the three local axes and has the
    step length or its negation as signed distance. *)
Lemma moves_signed (state : MovementState.t) (step : JS.number) :
  Forall (fun m => snd m = step \/ snd m = - step) (moves state step).
Proof.
  unfold moves, pair_move.
  destruct (MovementState.dominant MovementState.PairZ state) as [[]|];
    destruct (MovementState.dominant MovementState.PairX state) as [[]|];
    destruct (MovementState.dominant MovementState.PairY state) as [[]|];
    simpl;
    repeat match goal with |- Forall _ _ => constructor end; simpl; auto.
Qed.

(** C1. For every movement state and elapsed time, [translate] resolves
    each opposing pair by the pair's tie-break flag: with both directions
    held it moves along the positive local axis (+Z backward, +X right,
    +Y up) when the flag is set and along the negative one otherwise, with
    one direction held it moves along that direction, with none held it
    does not move on that axis ([moves] spells this out, and [translate]
    performs exactly these moves).  After any sequence of key events, from
    any state, that activates a direction of a pair and leaves both
    directions of the pair held, the dominant direction is the one of the
    pair that was activated most recently, and the tick's move on the
    pair's axis is the one of that direction. *)
Theorem translate_resolves_pairs :
  (forall (dt : JS.number) (tm : t),
     translate dt tm
     = apply_moves (moves (movementState tm) (step_length dt tm)) tm)
  /\ (forall (p : MovementState.Pair) (d : Direction)
             (events : list (Direction * bool)) (s : MovementState.t),
       let state := MovementState.run events s in
       MovementState.last_activated p events = Some d ->
       MovementState.held (MovementState.positive p) state = true ->
       MovementState.held (MovementState.negative p) state = true ->
       MovementState.dominant p state = Some d
       /\ (forall step,
             pair_move p state step = [(axis_of p, signed d step)])
       /\ (forall step,
             In (axis_of p, signed d step) (moves state step))).
Proof.
  split; [exact translate_moves|].
  intros p d events s state Hlast Hp Hn.
  assert (Hd : MovementState.dominant p state = Some d)
    by (apply dominant_last_activated; assumption).
  assert (Hm : forall step,
             pair_move p state step = [(axis_of p, signed d step)])
    by (intros step; unfold pair_move; rewrite Hd; reflexivity).
  split; [exact Hd|]. split; [exact Hm|].
  intros step. unfold moves.
  destruct p; rewrite !in_app_iff, Hm; simpl; auto.
Qed.

(** The theorem at the Z pair: forward is pressed, then backward, then left,
    and all three stay held.  Backward, pressed after forward, is dominant,
    and a tick of half a second at sensitivity 2 moves the position by one
    unit along +Z (and one along -X for left). *)
Lemma translate_resolves_pairs_witness :
  let state :=
    MovementState.run [(FORWARD, true); (BACKWARD, true); (LEFT, true)]
      released in
  MovementState.forward state = true
  /\ MovementState.backward state = true
  /\ MovementState.dominant MovementState.PairZ state = Some BACKWARD
  /\ position (translate 0.5 (scenario FIRST_PERSON 2 state))
     = Three.mkVector3 (-1) 0 1.
Proof.
  cbv zeta.
  destruct translate_resolves_pairs as [Ht Hd].
  split; [reflexivity|]. split; [reflexivity|]. split.
  - apply (Hd MovementState.PairZ BACKWARD
              [(FORWARD, true); (BACKWARD, true); (LEFT, true)] released
              eq_refl eq_refl eq_refl).
  - rewrite Ht. reflexivity.
Defined.

(** C2. The concrete scenario: identity quaternion, position (0,0,0), target
    (0,0,-1), first-person mode, sensitivity 2, boost off, only forward
    held.  After [update(0)] and [update(500)] the elapsed time handed to
    [translate] is 0.5, the step is 2 * 0.5 = 1 and the position is
    (0,0,-1): a displacement of 1 along local -Z.  In general, [update]
    with translation enabled translates by the elapsed milliseconds
    converted to seconds, and every move of a tick has the signed distance
    deltaTime * sensitivity * (boostMultiplier if boost, else 1) or its
    negation. *)
Theorem update_forward_half_second :
  forall (boostMultiplier : JS.number) (previous : ControlMode)
         (bbf rbl ubd : bool),
  let settings :=
    Settings.mk (Settings.mkGeneral FIRST_PERSON previous)
      (Settings.mkTranslation true 2 boostMultiplier) in
  let forwardOnly :=
    MovementState.mk false false true false false false false bbf rbl ubd in
  let tm0 :=
    setMovementState forwardOnly
      (new (Three.mkVector3 0 0 0) Three.identity (Three.mkVector3 0 0 (-1))
         settings) in
  let tm1 := update 0 tm0 in
  let tm2 := update 500 tm1 in
  (500 - timestamp tm1) * MILLISECONDS_TO_SECONDS = 0.5
  /\ step_length 0.5 tm1 = 2 * 0.5
  /\ step_length 0.5 tm1 = 1
  /\ tm2 = setTimestamp 500 (translateOnAxis axes.z (- 1) tm1)
  /\ position tm1 = Three.mkVector3 0 0 0
  /\ position tm2 = Three.mkVector3 0 0 (-1)
  /\ Three.sub (position tm2) (position tm1)
     = Three.multiplyScalar
         (Three.applyQuaternion (Three.mkVector3 0 0 (-1)) (quaternion tm1)) 1
  /\ target tm2 = Three.mkVector3 0 0 (-1)
  /\ (forall (ts : JS.number) (tm : t),
        update ts tm
        = setTimestamp ts
            (if Settings.enabled (Settings.translation (TranslationManager.settings tm))
             then translate ((ts - timestamp tm) * MILLISECONDS_TO_SECONDS) tm
             else tm))
  /\ (forall (dt : JS.number) (tm : t),
        translate dt tm
        = apply_moves (moves (movementState tm) (step_length dt tm)) tm
        /\ Forall (fun m => snd m = step_length dt tm
                            \/ snd m = - step_length dt tm)
             (moves (movementState tm) (step_length dt tm))
        /\ step_length dt tm
           = dt * Settings.sensitivity (Settings.translation (TranslationManager.settings tm))
             * (if MovementState.boost (movementState tm)
                then Settings.boostMultiplier
                       (Settings.translation (TranslationManager.settings tm))
                else 1)).
Proof.
  intros boostMultiplier previous bbf rbl ubd. cbv zeta.
  repeat split; try reflexivity.
  - apply translate_moves.
  - apply moves_signed.
Qed.

(** C7 (as amended). For every point p, [moveTo(p)] in first-person mode
    sets position to p and leaves target unchanged; in third-person mode it
    sets target to p and sets position to position + (p - old target), the
    delta being computed once in binary64 arithmetic and added to the
    position.  In both modes the quaternion, the settings, the movement
    state and the timestamp are unchanged and exactly one "update" event is
    dispatched. *)
Theorem moveTo_spec :
  forall (p : Three.Vector3) (tm : t),
  match getMode tm with
  | FIRST_PERSON =>
      position (moveTo p tm) = p /\ target (moveTo p tm) = target tm
  | THIRD_PERSON =>
      target (moveTo p tm) = p
      /\ position (moveTo p tm)
         = Three.add (position tm) (Three.sub p (target tm))
  end
  /\ quaternion (moveTo p tm) = quaternion tm
  /\ TranslationManager.settings (moveTo p tm) = TranslationManager.settings tm
  /\ movementState (moveTo p tm) = movementState tm
  /\ timestamp (moveTo p tm) = timestamp tm
  /\ dispatched (moveTo p tm) = Three.mkEvent "update" :: dispatched tm.
Proof.
  intros p tm. unfold moveTo.
  destruct (getMode tm); simpl; repeat split; reflexivity.
Qed.

(** C7, the claim as stated fails: third-person mode, position (1,0,0),
    target (0.1,0,0), p = (0.3,0,0).  The target becomes p and the position
    is translated by p - target, but the sum is rounded: the offset from
    target to position is 0.9 before the call and 0.8999999999999999 after
    it. *)
Lemma moveTo_offset_rounds :
  let tm :=
    setTarget (Three.mkVector3 0.1 0 0)
      (setPosition (Three.mkVector3 1 0 0) (scenario THIRD_PERSON 1 released)) in
  let p := Three.mkVector3 0.3 0 0 in
  target (moveTo p tm) = p
  /\ Three.sub (position tm) (target tm) = Three.mkVector3 0.9 0 0
  /\ Three.sub (position (moveTo p tm)) (target (moveTo p tm))
     = Three.mkVector3 0.8999999999999999 0 0
  /\ Three.sub (position (moveTo p tm)) (target (moveTo p tm))
     <> Three.sub (position tm) (target tm).
Proof.
  cbv zeta. repeat split; try reflexivity.
  intros H. apply (f_equal (fun v => Three.x v =? 0.9)) in H.
  vm_compute in H. discriminate H.
Qed.

(** C8. With translation disabled in the settings, [update(timestamp)]
    changes nothing but the timestamp: position, target and quaternion are
    unchanged, no event is dispatched, and the timestamp is the given one. *)
Theorem update_disabled :
  forall (ts : JS.number) (tm : t),
  Settings.enabled (Settings.translation (TranslationManager.settings tm)) = false ->
  update ts tm = setTimestamp ts tm
  /\ position (update ts tm) = position tm
  /\ target (update ts tm) = target tm
  /\ quaternion (update ts tm) = quaternion tm
  /\ movementState (update ts tm) = movementState tm
  /\ dispatched (update ts tm) = dispatched tm
  /\ timestamp (update ts tm) = ts.
Proof.
  intros ts tm H. unfold update. rewrite H. simpl. repeat split; reflexivity.
Qed.

(** The theorem at a manager with translation disabled: the frame at
    1016 ms moves nothing, dispatches nothing and records the timestamp. *)
Lemma update_disabled_witness :
  Settings.enabled
    (Settings.translation (TranslationManager.settings disabled_scenario)) = false
  /\ position (update 1016 disabled_scenario) = Three.mkVector3 1 2 3
  /\ dispatched (update 1016 disabled_scenario) = []
  /\ timestamp (update 1016 disabled_scenario) = 1016.
Proof.
  split; [reflexivity|].
  destruct (update_disabled 1016 disabled_scenario eq_refl)
    as (_ & Hp & _ & _ & _ & Hd & Ht).
  rewrite Hp, Hd, Ht. repeat split; reflexivity.
Defined.

End TranslationManagerProperties.

(** ** [Math.max] and [Math.min] *)

Section MathProperties.

Import JS.
Local Open Scope float_scope.

(** Away from NaN, [Math.max(x, y)] is a number and at least [y]. *)
Lemma Math_max_lower (x y : number) :
  is_nan x = false -> is_nan y = false ->
  is_nan (Math_max x y) = false /\ (y <=? Math_max x y) = true.
Proof.
  intros Hx Hy. unfold Math_max. rewrite Hx, Hy. simpl.
  destruct (x <? y) eqn:Hlt; simpl.
  - split; [assumption | now apply leb_refl].
  - destruct (is_neg_zero x && is_pos_zero y).
    + split; [assumption | now apply leb_refl].
    + split; [assumption | now apply leb_of_not_ltb].
Qed.

(** [Math.min(x, Infinity)] is [x]. *)
Lemma Math_min_infinity (x : number) :
  is_nan x = false -> Math_min x POSITIVE_INFINITY = x.
Proof.
  intros Hx. unfold Math_min, POSITIVE_INFINITY. rewrite Hx, ltb_infinity.
  reflexivity.
Qed.

(** Against a constant that is not a zero, [Math.max] is a plain
    comparison. *)
Lemma Math_max_nonzero (x c : number) :
  is_nan x = false -> is_nan c = false -> is_pos_zero c = false ->
  Math_max x c = if x <? c then c else x.
Proof.
  intros Hx Hc Hz. unfold Math_max.
  rewrite Hx, Hc, Hz, andb_false_r, !orb_false_r. reflexivity.
Qed.

End MathProperties.

(** ** The zoom settings *)

Section ZoomSettingsProperties.

Import JS ZoomSettings.
Local Open Scope float_scope.


(** [setRange] stores its two arguments as they are. *)
Lemma setRange_stores (min max : number) (s : t) :
  minDistance (setRange min max s) = min
  /\ maxDistance (setRange min max s) = max
  /\ dispatched (setRange min max s) = changeEvent :: dispatched s.
Proof.
  repeat split.
Qed.



(** C10. [fromJSON] copies enabled, inverted, minDistance and sensitivity
    from the JSON data as they are, and copies maxDistance when it is
    truthy; a falsy maxDistance (0, -0 or NaN) becomes positive infinity.
    Hence the round trip through [toJSON] and [fromJSON] gives the settings
    back when their maxDistance is truthy, and is not the identity on
    settings whose maxDistance is 0. *)
Theorem fromJSON_maxDistance :
  (forall (json : ZoomSettingsJSON) (s : t),
     enabled (fromJSON json s) = json_enabled json
     /\ inverted (fromJSON json s) = json_inverted json
     /\ minDistance (fromJSON json s) = json_minDistance json
     /\ sensitivity (fromJSON json s) = json_sensitivity json
     /\ maxDistance (fromJSON json s)
        = (if truthy (json_maxDistance json) then json_maxDistance json
           else POSITIVE_INFINITY)
     /\ dispatched (fromJSON json s) = dispatched s)
  /\ truthy 0 = false /\ truthy (-0) = false /\ truthy nan = false
  /\ (forall (e i : bool) (min sens : number) (s : t),
        maxDistance (fromJSON (mkJSON e i min 0 sens) s) = POSITIVE_INFINITY)
  /\ (forall s : t, toJSON s = mkJSON (enabled s) (inverted s) (minDistance s)
                                 (maxDistance s) (sensitivity s))
  /\ (forall s : t,
        fromJSON (toJSON s) s
        = (if truthy (maxDistance s) then s
           else mk (enabled s) (inverted s) (minDistance s) POSITIVE_INFINITY
                   (sensitivity s) (dispatched s)))
  /\ (exists s : t,
        maxDistance s = 0
        /\ maxDistance (fromJSON (toJSON s) s) = POSITIVE_INFINITY
        /\ fromJSON (toJSON s) s <> s
        /\ toJSON (fromJSON (toJSON s) s) <> toJSON s).
Proof.
  split; [intros json s; repeat split; reflexivity|].
  repeat split; try reflexivity.
  { intros [e i mn mx se dp]. unfold fromJSON, toJSON, or_else. simpl.
    destruct (truthy mx); reflexivity. }
  exists (setRange 1 0 new).
  repeat split; try reflexivity.
  - intros H. apply (f_equal (fun s => is_zero (maxDistance s))) in H.
    vm_compute in H. discriminate H.
  - intros H. apply (f_equal (fun j => is_zero (json_maxDistance j))) in H.
    vm_compute in H. discriminate H.
Qed.

End ZoomSettingsProperties.

(** ** The controller *)

Section SpatialControlsProperties.

Import JS SpatialControls.
Local Open Scope float_scope.

(** A tick of the translation manager leaves the quaternion, the settings
    and the movement state alone. *)
Lemma translateOnAxis_frame (axis : Three.Vector3) (d : number)
    (tm : TranslationManager.t) :
  TranslationManager.quaternion (TranslationManager.translateOnAxis axis d tm)
  = TranslationManager.quaternion tm
  /\ TranslationManager.settings (TranslationManager.translateOnAxis axis d tm)
     = TranslationManager.settings tm
  /\ TranslationManager.movementState
       (TranslationManager.translateOnAxis axis d tm)
     = TranslationManager.movementState tm.
Proof.
  unfold TranslationManager.translateOnAxis. simpl.
  destruct (ControlMode_eqb _ _); simpl; auto.
Qed.

Lemma apply_moves_frame (ms : list (Three.Vector3 * number)) :
  forall tm : TranslationManager.t,
  TranslationManager.quaternion (TranslationManager.apply_moves ms tm)
  = TranslationManager.quaternion tm
  /\ TranslationManager.settings (TranslationManager.apply_moves ms tm)
     = TranslationManager.settings tm
  /\ TranslationManager.movementState (TranslationManager.apply_moves ms tm)
     = TranslationManager.movementState tm.
Proof.
  induction ms as [|m ms IH]; intros tm; [simpl; auto|].
  change (TranslationManager.apply_moves (m :: ms) tm)
    with (TranslationManager.apply_moves ms
            (TranslationManager.translateOnAxis (fst m) (snd m) tm)).
  destruct (IH (TranslationManager.translateOnAxis (fst m) (snd m) tm))
    as (Hq & Hs & Hm).
  destruct (translateOnAxis_frame (fst m) (snd m) tm) as (Hq' & Hs' & Hm').
  rewrite Hq, Hs, Hm. auto.
Qed.

Lemma update_frame (ts : number) (tm : TranslationManager.t) :
  TranslationManager.quaternion (TranslationManager.update ts tm)
  = TranslationManager.quaternion tm
  /\ TranslationManager.settings (TranslationManager.update ts tm)
     = TranslationManager.settings tm
  /\ TranslationManager.movementState (TranslationManager.update ts tm)
     = TranslationManager.movementState tm.
Proof.
  unfold TranslationManager.update.
  destruct (Settings.enabled _); simpl; [|auto].
  rewrite translate_moves. apply apply_moves_frame.
Qed.

(** C9. Within one [update(timestamp)] of the controller the rotation
    manager's update comes first and the translation manager's update runs
    on its result: the position, quaternion, target and settings the
    translation manager reads are the ones the rotation manager's update
    left behind, whatever that update does, and the quaternion after the
    frame is still that one. *)
Theorem update_rotation_before_translation :
  forall (R : Type) (rotationUpdate : number -> RMView R -> RMView R)
         (ts : number) (c : t R),
  let r := rotationUpdate ts (rm_view c) in
  let seen :=
    TranslationManager.mk (rm_position r) (rm_quaternion r) (rm_target r)
      (rm_settings r) (movementState c) (timestamp c) [] in
  update rotationUpdate ts c
  = with_translationManager (TranslationManager.update ts)
      (with_rotationManager (rotationUpdate ts) c)
  /\ tm_view (with_rotationManager (rotationUpdate ts) c) = seen
  /\ position (update rotationUpdate ts c)
     = TranslationManager.position (TranslationManager.update ts seen)
  /\ target (update rotationUpdate ts c)
     = TranslationManager.target (TranslationManager.update ts seen)
  /\ quaternion (update rotationUpdate ts c) = rm_quaternion r
  /\ rotationManager (update rotationUpdate ts c) = rm_state r
  /\ timestamp (update rotationUpdate ts c) = ts
  /\ dispatched (update rotationUpdate ts c)
     = TranslationManager.dispatched (TranslationManager.update ts seen)
       ++ rm_dispatched r ++ dispatched c.
Proof.
  intros R rotationUpdate ts c r seen.
  repeat split; try reflexivity.
  change (TranslationManager.quaternion (TranslationManager.update ts seen)
          = TranslationManager.quaternion seen).
  apply update_frame.
Qed.

(** The order is observable: with forward held, the frame that follows the
    half turn moves along the new forward direction (world +Z), not along
    the one of the orientation before the frame (world -Z). *)
Lemma update_uses_the_new_quaternion :
  let c := controls (MovementState.activate FORWARD released) in
  position (update half_turn 500 c) = Three.mkVector3 0 0 1
  /\ TranslationManager.position (TranslationManager.update 500 (tm_view c))
     = Three.mkVector3 0 0 (-1).
Proof.
  cbv zeta. split; reflexivity.
Qed.

(** C6 (as amended). Loss of focus (the document becomes hidden) and
    [setEnabled], whether it enables or disables, and with it [dispose],
    reset the movement state at once: every directional, boost and
    tie-break flag is cleared.  A visibility change to a visible document
    and a pointer lock change, exit included, leave the movement state as it
    is: the pointer lock handler only adds or removes the mousemove
    listener. *)
Theorem cancellation_resets :
  forall (R : Type) (c : t R) (enable : bool),
  movementState (setEnabled enable c) = released
  /\ movementState (dispose c) = released
  /\ movementState (handleVisibilityChangeEvent c)
     = (if hidden c then released else movementState c)
  /\ movementState (handlePointerLockEvent c) = movementState c
  /\ elementListeners (handlePointerLockEvent c)
     = (if pointerLocked c then elementListeners c ∪ {[ "mousemove" ]}
        else elementListeners c ∖ {[ "mousemove" ]})
  /\ MovementState.reset (movementState c) = released.
Proof.
  intros R c enable.
  destruct c as [pl hd rq ex dl bl el dc pos q tg rm ms ts dr en st dp].
  destruct enable, en, hd, pl; repeat split; reflexivity.
Qed.

(** C6, the claim as stated fails: forward is held when the pointer lock is
    released; the handler leaves the movement state untouched, forward stays
    active. *)
Lemma pointer_lock_exit_keeps_moving :
  let c := controls (MovementState.activate FORWARD released) in
  pointerLocked c = false
  /\ MovementState.forward (movementState c) = true
  /\ MovementState.forward (movementState (handlePointerLockEvent c)) = true
  /\ movementState (handlePointerLockEvent c)
     <> MovementState.reset (movementState c).
Proof.
  cbv zeta. repeat split; try reflexivity.
  intros H. apply (f_equal MovementState.forward) in H. discriminate H.
Qed.

(** What [onSettingsChanged] does before it hands over to the rotation
    manager: on a change to third person the target takes the old position
    and the old target is subtracted from the position; on a change to first
    person the position takes the old target and the target becomes the
    vector (0,0,-1) rotated by the quaternion; without a change of mode
    nothing is touched.  The rotation manager then runs [updateSpherical],
    [updatePosition] and [updateQuaternion], in this order, on the result. *)
Lemma onSettingsChanged_swap :
  forall (R : Type) (updateSpherical updatePosition updateQuaternion
                       : RMView R -> RMView R) (c : t R),
  let general := Settings.general (settings c) in
  let swapped :=
    if ControlMode_eqb (Settings.mode general) (Settings.previousMode general)
    then c
    else
      match Settings.mode general with
      | THIRD_PERSON =>
          setPositionTarget (Three.sub (position c) (target c)) (position c) c
      | FIRST_PERSON =>
          setPositionTarget (target c)
            (Three.applyQuaternion (Three.mkVector3 0 0 (-1)) (quaternion c)) c
      end in
  onSettingsChanged updateSpherical updatePosition updateQuaternion c
  = with_rotationManager
      (fun rm => updateQuaternion (updatePosition (updateSpherical rm)))
      swapped.
Proof.
  intros R us up uq c. cbv zeta. unfold onSettingsChanged.
  destruct (Settings.mode (Settings.general (settings c))),
           (Settings.previousMode (Settings.general (settings c)));
    reflexivity.
Qed.

End SpatialControlsProperties.

(** ** More on the translation manager *)

Section TranslationManagerCoverage.

Import TranslationManager.
Local Open Scope float_scope.

(** An element moves across a block of copies of itself. *)
Lemma repeat_middle {A : Type} (a : A) (n : nat) (l : list A) :
  repeat a n ++ a :: l = a :: repeat a n ++ l.
Proof.
  induction n as [|n IH]; simpl; [reflexivity|]. now rewrite IH.
Qed.

(** The trace, the position and the target after a list of moves. *)
Lemma apply_moves_effect (ms : list (Three.Vector3 * JS.number)) :
  forall tm : t,
  dispatched (apply_moves ms tm)
  = repeat updateEvent (length ms) ++ dispatched tm
  /\ position (apply_moves ms tm)
     = fold_left Three.add (map (Tick.delta (quaternion tm)) ms) (position tm)
  /\ target (apply_moves ms tm)
     = match getMode tm with
       | THIRD_PERSON =>
           fold_left Three.add (map (Tick.delta (quaternion tm)) ms) (target tm)
       | FIRST_PERSON => target tm
       end
  /\ timestamp (apply_moves ms tm) = timestamp tm.
Proof.
  induction ms as [|m ms IH]; intros tm.
  - simpl. destruct (getMode tm); auto.
  - change (apply_moves (m :: ms) tm)
      with (apply_moves ms (translateOnAxis (fst m) (snd m) tm)).
    destruct (IH (translateOnAxis (fst m) (snd m) tm)) as (Hd & Hp & Ht & Hs).
    rewrite Hd, Hp, Ht, Hs.
    assert (Hq : quaternion (translateOnAxis (fst m) (snd m) tm) = quaternion tm)
      by apply translateOnAxis_frame.
    assert (Hm : getMode (translateOnAxis (fst m) (snd m) tm) = getMode tm).
    { unfold getMode.
      destruct (translateOnAxis_frame (fst m) (snd m) tm) as (_ & Hset & _).
      now rewrite Hset. }
    rewrite Hq, Hm. unfold translateOnAxis, getMode in *. simpl.
    destruct (Settings.mode (Settings.general (settings tm))); simpl.
    + repeat split. apply repeat_middle.
    + repeat split. apply repeat_middle.
Qed.

(** One move per active pair. *)
Lemma length_moves (s : MovementState.t) (step : JS.number) :
  length (moves s step) = Tick.active_pairs s.
Proof.
  destruct s as [l r f b u d bo bbf rbl ubd].
  destruct l, r, f, b, u, d, bbf, rbl, ubd; reflexivity.
Qed.

(** X1. A tick dispatches exactly one "update" event per active pair (a
    pair with at least one direction held), whatever the step length, a
    step of zero included, and none when nothing is held. *)
Theorem translate_dispatches_per_pair :
  forall (dt : JS.number) (tm : t),
  dispatched (translate dt tm)
  = repeat updateEvent (Tick.active_pairs (movementState tm)) ++ dispatched tm.
Proof.
  intros dt tm. rewrite translate_moves.
  destruct (apply_moves_effect
              (moves (movementState tm) (step_length dt tm)) tm) as (Hd & _).
  rewrite Hd, length_moves. reflexivity.
Qed.

(** X2. In third-person mode a tick adds the very same world-space vectors,
    in the same order, to the position and to the target, so the pivot pans
    with the camera; in first-person mode the target is left alone.  The
    vectors are the local axes of the moves, rotated by the quaternion the
    manager had when the tick began. *)
Theorem translate_pans_target :
  forall (dt : JS.number) (tm : t),
  let deltas :=
    map (Tick.delta (quaternion tm))
        (moves (movementState tm) (step_length dt tm)) in
  position (translate dt tm) = fold_left Three.add deltas (position tm)
  /\ target (translate dt tm)
     = match getMode tm with
       | THIRD_PERSON => fold_left Three.add deltas (target tm)
       | FIRST_PERSON => target tm
       end.
Proof.
  intros dt tm deltas. rewrite translate_moves.
  destruct (apply_moves_effect
              (moves (movementState tm) (step_length dt tm)) tm)
    as (_ & Hp & Ht & _).
  split; assumption.
Qed.

(** X3. Neither a tick nor a frame ever changes the quaternion, the
    settings or the movement state; a tick also leaves the timestamp, and a
    frame sets it to the given one whether translation is enabled or
    not. *)
Theorem translation_frame :
  forall (dt ts : JS.number) (tm : t),
  quaternion (translate dt tm) = quaternion tm
  /\ TranslationManager.settings (translate dt tm) = TranslationManager.settings tm
  /\ movementState (translate dt tm) = movementState tm
  /\ timestamp (translate dt tm) = timestamp tm
  /\ quaternion (update ts tm) = quaternion tm
  /\ TranslationManager.settings (update ts tm) = TranslationManager.settings tm
  /\ movementState (update ts tm) = movementState tm
  /\ timestamp (update ts tm) = ts.
Proof.
  intros dt ts tm.
  destruct (apply_moves_frame (moves (movementState tm) (step_length dt tm)) tm)
    as (Hq & Hs & Hm).
  destruct (apply_moves_effect
              (moves (movementState tm) (step_length dt tm)) tm)
    as (_ & _ & _ & Ht).
  destruct (update_frame ts tm) as (Hq' & Hs' & Hm').
  rewrite translate_moves. repeat split; try assumption.
Qed.

(** X4. With no direction held a frame changes nothing but the timestamp
    and dispatches no event, with translation enabled as well as
    disabled. *)
Theorem update_idle :
  forall (ts : JS.number) (tm : t),
  Tick.idle (movementState tm) = true ->
  update ts tm = setTimestamp ts tm.
Proof.
  intros ts tm Hidle. unfold update.
  destruct (Settings.enabled _); [|reflexivity].
  rewrite translate_moves.
  destruct tm as [pos q tg st ms t0 ev].
  destruct ms as [l r f b u d bo bbf rbl ubd].
  destruct l, r, f, b, u, d; try discriminate Hidle; reflexivity.
Qed.

(** The theorem at a manager with translation enabled and boost held but no
    direction: the frame at 500 ms keeps position and trace. *)
Lemma update_idle_witness :
  Tick.idle
    (MovementState.mk false false false false false false true true false true)
  = true
  /\ update 500
       (scenario THIRD_PERSON 2
          (MovementState.mk false false false false false false true true
             false true))
     = setTimestamp 500
         (scenario THIRD_PERSON 2
            (MovementState.mk false false false false false false true true
               false true)).
Proof.
  split; [reflexivity|].
  apply update_idle. reflexivity.
Defined.

(** X5. The elapsed time of a frame is measured from the timestamp of the
    frame before it, and from 0 for the first frame of a fresh manager:
    with translation enabled, the second of two frames translates by
    (t2 - t1) milliseconds whatever happened before, and the first frame
    after construction by the full timestamp. *)
Theorem update_baseline :
  forall (t1 t2 : JS.number) (tm : t)
         (p tg : Three.Vector3) (q : Three.Quaternion) (st : Settings.t),
  Settings.enabled (Settings.translation (TranslationManager.settings tm)) = true ->
  Settings.enabled (Settings.translation st) = true ->
  update t2 (update t1 tm)
  = setTimestamp t2
      (translate ((t2 - t1) * MILLISECONDS_TO_SECONDS) (update t1 tm))
  /\ update t1 (new p q tg st)
     = setTimestamp t1
         (translate ((t1 - 0) * MILLISECONDS_TO_SECONDS) (new p q tg st)).
Proof.
  intros t1 t2 tm p tg q st Hen Hst. split.
  - destruct (update_frame t1 tm) as (_ & Hs & _).
    unfold update at 1. rewrite Hs, Hen. reflexivity.
  - unfold update. simpl. rewrite Hst. reflexivity.
Qed.

(** The theorem at the forward-moving manager of the scenarios: frames at
    100 ms and 116 ms, and the first frame of a fresh manager at 100 ms. *)
Lemma update_baseline_witness :
  update 116 (update 100 (scenario FIRST_PERSON 2 (MovementState.activate FORWARD released)))
  = setTimestamp 116
      (translate ((116 - 100) * MILLISECONDS_TO_SECONDS)
         (update 100 (scenario FIRST_PERSON 2 (MovementState.activate FORWARD released))))
  /\ update 100
       (new (Three.mkVector3 0 0 0) Three.identity (Three.mkVector3 0 0 (-1))
          (scenario_settings FIRST_PERSON 2 1))
     = setTimestamp 100
         (translate ((100 - 0) * MILLISECONDS_TO_SECONDS)
            (new (Three.mkVector3 0 0 0) Three.identity
               (Three.mkVector3 0 0 (-1)) (scenario_settings FIRST_PERSON 2 1))).
Proof.
  exact (update_baseline 100 116
           (scenario FIRST_PERSON 2 (MovementState.activate FORWARD released))
           (Three.mkVector3 0 0 0) (Three.mkVector3 0 0 (-1)) Three.identity
           (scenario_settings FIRST_PERSON 2 1) eq_refl eq_refl).
Defined.

End TranslationManagerCoverage.

(** ** More on the zoom settings *)

Section ZoomSettingsCoverage.

Import JS ZoomSettings.
Local Open Scope float_scope.

(** A comparison [<=] that holds involves no NaN. *)
Lemma is_nan_of_leb (x y : number) :
  (x <=? y) = true -> is_nan x = false /\ is_nan y = false.
Proof.
  rewrite FloatAxioms.leb_spec. unfold SFleb. intros H.
  split; apply is_nan_Prim2SF; intros E; rewrite E in H; simpl in H;
    try discriminate.
  destruct (Prim2SF x); discriminate.
Qed.

(** [x <= y] excludes [y < x]. *)
Lemma ltb_false_of_leb (x y : number) :
  (x <=? y) = true -> (y <? x) = false.
Proof.
  rewrite FloatAxioms.leb_spec, FloatAxioms.ltb_spec. unfold SFleb, SFltb.
  rewrite (SFcompare_antisym (Prim2SF x) (Prim2SF y)).
  destruct (SFcompare (Prim2SF x) (Prim2SF y)) as [[]|]; simpl;
    intros H; try reflexivity; discriminate H.
Qed.

(** A number above zero is not a zero. *)
Lemma is_pos_zero_of_positive (x : number) :
  (0 <? x) = true -> is_pos_zero x = false.
Proof.
  unfold is_pos_zero.
  rewrite FloatAxioms.ltb_spec, FloatAxioms.classify_spec. unfold SFltb.
  change (Prim2SF 0) with (S754_zero false).
  destruct (Prim2SF x) as [s|s| |s m e]; simpl; try discriminate.
  - destruct s; [discriminate | reflexivity].
  - destruct s; [discriminate|]. intros _. unfold SF64classify, SFclassify.
    match goal with |- context [if ?b then _ else _] => destruct b end;
      reflexivity.
Qed.

(** A NaN argument makes [Math.max] and [Math.min] NaN. *)
Lemma Math_max_nan (x y : number) :
  is_nan x || is_nan y = true -> Math_max x y = nan.
Proof.
  intros H. unfold Math_max. now rewrite H.
Qed.

Lemma Math_min_nan (x y : number) :
  is_nan x || is_nan y = true -> Math_min x y = nan.
Proof.
  intros H. unfold Math_min. now rewrite H.
Qed.

(** X6. After [fromJSON] the maximum distance is never 0 nor NaN, so
    settings that were read from JSON survive a further round trip through
    [toJSON] and [fromJSON] unchanged; and JSON data whose maxDistance is
    truthy is given back by [toJSON] as it was read. *)
Theorem fromJSON_normalises :
  forall (json : ZoomSettingsJSON) (s : t),
  truthy (maxDistance (fromJSON json s)) = true
  /\ fromJSON (toJSON (fromJSON json s)) (fromJSON json s) = fromJSON json s
  /\ toJSON (fromJSON json s)
     = (if truthy (json_maxDistance json) then json
        else mkJSON (json_enabled json) (json_inverted json)
               (json_minDistance json) POSITIVE_INFINITY
               (json_sensitivity json)).
Proof.
  intros [e i mn mx se] s.
  assert (Ht : truthy (or_else mx POSITIVE_INFINITY) = true).
  { unfold or_else. destruct (truthy mx) eqn:E; [exact E | reflexivity]. }
  split; [exact Ht|]. split.
  - unfold fromJSON, toJSON. simpl.
    unfold or_else at 1. rewrite Ht. reflexivity.
  - unfold fromJSON, toJSON, or_else. simpl.
    destruct (truthy mx); reflexivity.
Qed.

(** X7. Setting the minimum and then the maximum always ends in a valid
    range, 0 < minDistance <= maxDistance, whatever the two values (NaN
    apart) and whatever the settings were before. *)
Theorem setMin_then_setMax_valid :
  forall (min max : number) (s : t),
  is_nan min = false -> is_nan max = false ->
  range_ok (setMaxDistance max (setMinDistance min s)) = true.
Proof.
  intros mn mx s Hmn Hmx. unfold range_ok. simpl.
  destruct (Math_max_lower mn 1e-6 Hmn eq_refl) as [Hn1 Hle1].
  rewrite (Math_min_infinity _ Hn1).
  destruct (Math_max_lower mx (Math_max mn 1e-6) Hmx Hn1) as [Hn2 Hle2].
  rewrite (Math_min_infinity _ Hn2), Hle2, andb_true_r.
  apply (ltb_zero_of_leb_positive 1e-6 _ 4722366482869645 (-72));
    [reflexivity | exact Hle1].
Qed.

(** The theorem at a minimum of 5 and a maximum of 3 on settings whose range
    is already broken: the maximum is pulled up to 5. *)
Lemma setMin_then_setMax_valid_witness :
  range_ok (setRange 9 (-1) new) = false
  /\ range_ok (setMaxDistance 3 (setMinDistance 5 (setRange 9 (-1) new))) = true.
Proof.
  split; [reflexivity|].
  exact (setMin_then_setMax_valid 5 3 (setRange 9 (-1) new) eq_refl eq_refl).
Defined.

(** X8. The clamps do not coerce NaN: a NaN value is stored as NaN by
    [setMinDistance] and by [setMaxDistance], and a NaN minimum turns every
    maximum set afterwards into NaN; the range is then invalid. *)
Theorem NaN_passes_the_clamps :
  forall (value : number) (s : t),
  is_nan value || is_nan (minDistance s) = true ->
  (is_nan value = true ->
     minDistance (setMinDistance value s) = nan
     /\ range_ok (setMinDistance value s) = false)
  /\ maxDistance (setMaxDistance value s) = nan
  /\ range_ok (setMaxDistance value s) = false.
Proof.
  intros v s H. split; [intros Hv; split|split].
  - simpl. rewrite (Math_max_nan v 1e-6) by now rewrite Hv.
    reflexivity.
  - unfold range_ok. simpl. rewrite (Math_max_nan v 1e-6) by now rewrite Hv.
    reflexivity.
  - simpl. rewrite (Math_max_nan v (minDistance s) H). reflexivity.
  - unfold range_ok. simpl. rewrite (Math_max_nan v (minDistance s) H).
    change (Math_min nan POSITIVE_INFINITY) with nan.
    destruct (0 <? minDistance s); [simpl|reflexivity].
    rewrite FloatAxioms.leb_spec. unfold SFleb.
    change (Prim2SF nan) with S754_nan.
    destruct (Prim2SF (minDistance s)); reflexivity.
Qed.

(** The theorem at the value NaN on the fresh settings. *)
Lemma NaN_passes_the_clamps_witness :
  minDistance (setMinDistance nan new) = nan
  /\ maxDistance (setMaxDistance nan new) = nan
  /\ range_ok (setMaxDistance nan new) = false.
Proof.
  destruct (NaN_passes_the_clamps nan new eq_refl) as (Hmin & Hmax & Hok).
  destruct (Hmin eq_refl) as (Hm & _).
  split; [exact Hm|]. split; [exact Hmax | exact Hok].
Defined.

(** X9. Writing back what the getters return: on settings with a valid
    range, [setMaxDistance(getMaxDistance())] leaves both distances as they
    are, and [setMinDistance(getMinDistance())] does so when the minimum is
    at least 1e-6; a positive minimum below 1e-6, which [setRange] and
    [fromJSON] accept, is raised to 1e-6 instead. *)
Theorem distance_set_get :
  forall s : t,
  range_ok s = true ->
  maxDistance (setMaxDistance (getMaxDistance s) s) = maxDistance s
  /\ minDistance (setMaxDistance (getMaxDistance s) s) = minDistance s
  /\ maxDistance (setMinDistance (getMinDistance s) s) = maxDistance s
  /\ minDistance (setMinDistance (getMinDistance s) s)
     = (if minDistance s <? 1e-6 then 1e-6 else minDistance s).
Proof.
  intros s Hok. unfold range_ok in Hok.
  apply andb_true_iff in Hok. destruct Hok as [Hpos Hle].
  destruct (is_nan_of_leb _ _ Hle) as [Hnmin Hnmax].
  unfold getMaxDistance, getMinDistance. simpl.
  repeat split.
  - assert (Hmax : Math_max (maxDistance s) (minDistance s) = maxDistance s).
    { rewrite Math_max_nonzero; try assumption.
      - now rewrite (ltb_false_of_leb _ _ Hle).
      - now apply is_pos_zero_of_positive. }
    rewrite Hmax. now apply Math_min_infinity.
  - rewrite Math_min_infinity by now apply Math_max_lower.
    now apply Math_max_nonzero.
Qed.

(** The theorem at settings with the range [1e-9, 10], as [setRange]
    stores it: the maximum is a fixed point, the minimum is raised. *)
Lemma distance_set_get_witness :
  range_ok (setRange 1e-9 10 new) = true
  /\ maxDistance (setMaxDistance 10 (setRange 1e-9 10 new)) = 10
  /\ minDistance (setMinDistance 1e-9 (setRange 1e-9 10 new)) = 1e-6.
Proof.
  split; [reflexivity|].
  destruct (distance_set_get (setRange 1e-9 10 new) eq_refl)
    as (Hmax & _ & _ & Hmin).
  split; [exact Hmax | exact Hmin].
Defined.

(** The trace after one call. *)
Lemma call_dispatched (c : ZoomCalls.Call) (s : t) :
  dispatched (ZoomCalls.call c s)
  = if ZoomCalls.is_setter c then changeEvent :: dispatched s
    else dispatched s.
Proof.
  destruct c; reflexivity.
Qed.

(** X10. Every setter dispatches exactly one "change" event and [copy] and
    [fromJSON] dispatch none: after any sequence of calls the trace has
    grown by one "change" event per setter call, and by nothing else. *)
Theorem one_change_event_per_setter :
  forall (calls : list ZoomCalls.Call) (s : t),
  dispatched (ZoomCalls.run calls s)
  = repeat changeEvent (length (filter ZoomCalls.is_setter calls))
    ++ dispatched s.
Proof.
  induction calls as [|c calls IH]; intros s; [reflexivity|].
  change (ZoomCalls.run (c :: calls) s)
    with (ZoomCalls.run calls (ZoomCalls.call c s)).
  rewrite IH, call_dispatched. simpl.
  destruct (ZoomCalls.is_setter c); simpl; [|reflexivity].
  apply repeat_middle.
Qed.

End ZoomSettingsCoverage.

(** ** More on the controller *)

Section SpatialControlsCoverage.

Import JS SpatialControls Listeners.
Local Open Scope float_scope.
Local Set Warnings "-clear-no-such-hyp".

(** X11. [setEnabled] is idempotent up to the pointer lock request: a
    second call with the same flag changes no listener set, no flag and no
    part of the pose.  Where the document offers [exitPointerLock], every
    call, an enabling one included, asks to exit the pointer lock, so the
    second call asks once more; where the document does not offer it, no
    call makes a request and the second call changes nothing at all. *)
Theorem setEnabled_idempotent :
  forall (R : Type) (c : t R) (enable : bool),
  let c1 := setEnabled enable c in
  let c2 := setEnabled enable c1 in
  documentListeners c2 = documentListeners c1
  /\ bodyListeners c2 = bodyListeners c1
  /\ elementListeners c2 = elementListeners c1
  /\ enabled c2 = enable /\ enabled c1 = enable
  /\ movementState c2 = movementState c1
  /\ (position c2, quaternion c2, target c2)
     = (position c, quaternion c, target c)
  /\ dispatched c2 = dispatched c
  /\ domCalls c1
     = (if exitPointerLockDefined c
        then "exitPointerLock"%string :: domCalls c else domCalls c)
  /\ domCalls c2
     = (if exitPointerLockDefined c
        then "exitPointerLock"%string :: domCalls c1 else domCalls c1)
  /\ (exitPointerLockDefined c = false -> c2 = c1).
Proof.
  intros R c enable.
  destruct c as [pl hd rq ex dl bl el dc pos q tg rm ms ts dr en st dp].
  destruct enable, en, ex; cbv zeta; repeat split;
    try reflexivity; discriminate.
Qed.

(** X12. Enabling and then disabling a disabled controller gives back the
    listener sets it started with, provided none of the controller's event
    types was registered before. *)
Theorem enable_disable_restores_listeners :
  forall (R : Type) (c : t R),
  enabled c = false ->
  documentListeners c ## documentTypes ->
  bodyListeners c ## bodyTypes ->
  elementListeners c ## elementTypes ∪ moveTypes ->
  let c' := setEnabled false (setEnabled true c) in
  documentListeners c' = documentListeners c
  /\ bodyListeners c' = bodyListeners c
  /\ elementListeners c' = elementListeners c
  /\ enabled c' = false.
Proof.
  intros R c Hen Hd Hb He.
  destruct c as [pl hd rq ex dl bl el dc pos q tg rm ms ts dr en st dp].
  simpl in Hen, Hd, Hb, He. subst en. cbv zeta.
  unfold documentTypes, bodyTypes, elementTypes, moveTypes in *.
  unfold setEnabled. simpl.
  repeat split; set_solver.
Qed.

(** The theorem at a disabled controller whose element carries a listener
    of a foreign type. *)
Lemma enable_disable_restores_listeners_witness :
  let c : t unit :=
    mk false false true true ∅ ∅ {[ "click" ]} [] (Three.mkVector3 0 0 0)
       Three.identity (Three.mkVector3 0 0 (-1)) tt released 0 false false
       (scenario_settings FIRST_PERSON 2 1) [] in
  elementListeners (setEnabled false (setEnabled true c)) = {[ "click" ]}
  /\ documentListeners (setEnabled false (setEnabled true c)) = ∅.
Proof.
  cbv zeta.
  pose proof
    (enable_disable_restores_listeners unit
       (mk false false true true ∅ ∅ {[ "click" ]} [] (Three.mkVector3 0 0 0)
          Three.identity (Three.mkVector3 0 0 (-1)) tt released 0 false false
          (scenario_settings FIRST_PERSON 2 1) [])
       eq_refl) as H.
  simpl in H.
  destruct H as (Hd & _ & He & _);
    [ unfold documentTypes; set_solver
    | unfold bodyTypes; set_solver
    | unfold elementTypes, moveTypes; set_solver | ].
  split; [exact He | exact Hd].
Defined.

(** X13. Disposing of an enabled controller leaves none of its event types
    registered, on the document, on the body or on the element, the move
    listeners of a running drag or touch included, and disables it.  A
    controller that is not enabled keeps whatever is registered: the
    listeners are removed only on the transition from enabled to
    disabled. *)
Theorem dispose_removes_listeners :
  forall (R : Type) (c : t R),
  (enabled c = true ->
     documentListeners (dispose c) ## documentTypes
     /\ bodyListeners (dispose c) ## bodyTypes
     /\ elementListeners (dispose c) ## elementTypes ∪ moveTypes)
  /\ (enabled c = false ->
     documentListeners (dispose c) = documentListeners c
     /\ bodyListeners (dispose c) = bodyListeners c
     /\ elementListeners (dispose c) = elementListeners c)
  /\ enabled (dispose c) = false.
Proof.
  intros R c.
  destruct c as [pl hd rq ex dl bl el dc pos q tg rm ms ts dr en st dp].
  unfold dispose, setEnabled, documentTypes, bodyTypes, elementTypes,
    moveTypes. simpl.
  split; [|split]; [intros ->; simpl | intros ->; simpl | reflexivity].
  - repeat split; set_solver.
  - repeat split.
Qed.

(** The theorem at the enabled controller of the scenarios, in the middle
    of a drag. *)
Lemma dispose_removes_listeners_witness :
  ("mousemove" ∈ elementListeners (controls released))
  /\ elementListeners (dispose (controls released)) ## elementTypes ∪ moveTypes
  /\ enabled (dispose (controls released)) = false.
Proof.
  split; [set_solver|].
  destruct (dispose_removes_listeners unit (controls released))
    as (Hen & _ & Hoff).
  destruct (Hen eq_refl) as (_ & _ & He).
  split; [exact He | exact Hoff].
Defined.

(** X14. When the document becomes hidden the handler removes the two move
    listeners from the element and nothing else: every other registration
    stays, the controller stays enabled, the drag flag and the pose are
    kept, and no exit from the pointer lock is requested. *)
Theorem visibility_loss_stops_moves :
  forall (R : Type) (c : t R),
  hidden c = true ->
  let c' := handleVisibilityChangeEvent c in
  ("mousemove" ∉ elementListeners c')
  /\ ("touchmove" ∉ elementListeners c')
  /\ (forall ty : string,
        ty ∉ moveTypes -> (ty ∈ elementListeners c' <-> ty ∈ elementListeners c))
  /\ documentListeners c' = documentListeners c
  /\ bodyListeners c' = bodyListeners c
  /\ enabled c' = enabled c
  /\ dragging c' = dragging c
  /\ domCalls c' = domCalls c
  /\ (position c', quaternion c', target c')
     = (position c, quaternion c, target c)
  /\ dispatched c' = dispatched c.
Proof.
  intros R c Hh.
  destruct c as [pl hd rq ex dl bl el dc pos q tg rm ms ts dr en st dp].
  simpl in Hh. subst hd. cbv zeta.
  unfold handleVisibilityChangeEvent, moveTypes. simpl.
  repeat split; try set_solver.
Qed.

(** The theorem at the enabled controller of the scenarios on a hidden
    page. *)
Lemma visibility_loss_stops_moves_witness :
  let c : t unit :=
    mk false true true true documentTypes bodyTypes
       (elementTypes ∪ moveTypes) []
       (Three.mkVector3 0 0 0) Three.identity (Three.mkVector3 0 0 (-1)) tt
       (MovementState.activate FORWARD released) 0 true true
       (scenario_settings FIRST_PERSON 2 1) [] in
  ("mousemove" ∉ elementListeners (handleVisibilityChangeEvent c))
  /\ enabled (handleVisibilityChangeEvent c) = true
  /\ dragging (handleVisibilityChangeEvent c) = true.
Proof.
  cbv zeta.
  pose proof
    (visibility_loss_stops_moves unit
       (mk false true true true documentTypes bodyTypes
          (elementTypes ∪ moveTypes) []
          (Three.mkVector3 0 0 0) Three.identity (Three.mkVector3 0 0 (-1)) tt
          (MovementState.activate FORWARD released) 0 true true
          (scenario_settings FIRST_PERSON 2 1) [])
       eq_refl) as H.
  cbv zeta in H. destruct H as (Hm & _ & _ & _ & _ & He & Hd & _).
  split; [exact Hm|]. split; [exact He | exact Hd].
Defined.

End SpatialControlsCoverage.

(** ** The input handlers *)

Section InputCoverage.

Import JS Listeners Input.
Local Open Scope float_scope.
Local Set Warnings "-clear-no-such-hyp".

Context {R : Type}.
Variable adjustSpherical :
  number -> number -> SpatialControls.RMView R -> SpatialControls.RMView R.
Variable updateSpherical : SpatialControls.RMView R -> SpatialControls.RMView R.
Variable updatePosition : SpatialControls.RMView R -> SpatialControls.RMView R.
Variable updateQuaternion : SpatialControls.RMView R -> SpatialControls.RMView R.
Variable zoom : number -> SpatialControls.RMView R -> SpatialControls.RMView R.
Variable MovementStrategy_execute :
  Direction -> bool -> MovementState.t -> MovementState.t.
Variable BoostStrategy_execute : bool -> MovementState.t -> MovementState.t.
Variable ZoomStrategy_execute :
  bool -> bool -> SpatialControls.RMView R -> SpatialControls.RMView R.

(** A call into the rotation manager reaches neither the page nor the
    translation manager's own fields. *)
Lemma with_rotationManager_frame
    (f : SpatialControls.RMView R -> SpatialControls.RMView R)
    (c : SpatialControls.t R) :
  same_page (SpatialControls.with_rotationManager f c) c
  /\ SpatialControls.movementState (SpatialControls.with_rotationManager f c)
     = SpatialControls.movementState c
  /\ SpatialControls.timestamp (SpatialControls.with_rotationManager f c)
     = SpatialControls.timestamp c.
Proof.
  unfold same_page. simpl. repeat split.
Qed.


(** Comparing the type of an event with a type that is not its own. *)
Lemma eqb_type_other (event : Event) (ty : string) (known : gset string) :
  type event ∉ known -> ty ∈ known -> String.eqb (type event) ty = false.
Proof.
  intros Hn Hin. apply String.eqb_neq. intros E. apply Hn. now rewrite E.
Qed.

(** X16. [handleEvent] does nothing on an event whose type is none of the
    thirteen it has a case for: the twelve DOM event types the controller
    registers for and the "change" event of the settings. *)
Theorem handleEvent_ignores_other_types :
  forall (event : Event) (s : t R),
  type event ∉ handledTypes ->
  handleEvent adjustSpherical updateSpherical updatePosition updateQuaternion
    zoom MovementStrategy_execute BoostStrategy_execute ZoomStrategy_execute
    event s
  = Some s.
Proof.
  intros event s Hn. unfold handleEvent.
  repeat
    match goal with
    | |- context [String.eqb (type event) ?ty] =>
        rewrite (eqb_type_other event ty handledTypes Hn)
          by (unfold handledTypes, documentTypes, bodyTypes, elementTypes,
                moveTypes; set_solver)
    end.
  reflexivity.
Qed.

(** X17. A "touchstart" or "touchmove" event whose touch list is empty
    makes [handleEvent] fail: the handler reads a coordinate of the missing
    first touch point, which is a TypeError. *)
Theorem handleEvent_fails_without_touch :
  forall (event : Event) (s : t R),
  type event = "touchstart"%string \/ type event = "touchmove"%string ->
  touches event = [] ->
  handleEvent adjustSpherical updateSpherical updatePosition updateQuaternion
    zoom MovementStrategy_execute BoostStrategy_execute ZoomStrategy_execute
    event s
  = None.
Proof.
  intros event s [E|E] Ht;
    unfold handleEvent, handleTouchMoveEvent, handleTouchEvent;
    rewrite E, Ht; reflexivity.
Qed.

(** Evaluation of the handlers down to the fields of the records, the
    operations on the listener sets left as they are. *)
Ltac eval_handlers :=
  lazy beta iota zeta delta
    [handlePointerButtonEvent handlePointerLeaveEvent handleMainPointerButton
     handleAuxiliaryPointerButton handleSecondaryPointerButton
     handlePointerMoveEvent handleTouchEvent handleTouchMoveEvent
     handleKeyboardEvent handleWheelEvent rotate execute
     addElementListener removeElementListener setControls
     setLastScreenPosition setDragging preventDefault same_pose same_page
     PointerBehaviour_eqb negb andb orb
     controls lastScreenPosition inputSettings defaultPrevented
     behaviour pointerSensitivity sensitivityX sensitivityY keyBindings
     type button screenX screenY movementX movementY keyCode deltaY touches
     touch_screenX touch_screenY
     SpatialControls.setListeners SpatialControls.setPointerLocked
     SpatialControls.setMovementState SpatialControls.with_rotationManager
     SpatialControls.rm_view
     SpatialControls.pointerLocked SpatialControls.hidden
     SpatialControls.requestPointerLockDefined
     SpatialControls.exitPointerLockDefined
     SpatialControls.documentListeners SpatialControls.bodyListeners
     SpatialControls.elementListeners SpatialControls.domCalls
     SpatialControls.position SpatialControls.quaternion
     SpatialControls.target SpatialControls.rotationManager
     SpatialControls.movementState SpatialControls.timestamp
     SpatialControls.dragging SpatialControls.enabled
     SpatialControls.settings SpatialControls.dispatched].

(** X18. A drag with the default pointer behaviour: pressing the main
    button registers the mousemove listener, raises the drag flag and
    stores the screen position of the press; releasing it removes the
    listener and lowers the flag; a pointer that leaves the element instead
    has the listener removed but the drag flag stays raised.  No pointer
    lock is requested, and only the two button events have their default
    prevented. *)
Theorem default_drag_cycle :
  forall (down up leave : Event) (s : t R),
  behaviour (inputSettings s) = DEFAULT ->
  button down = MAIN -> button up = MAIN ->
  let s1 := handlePointerButtonEvent down true s in
  let s2 := handlePointerButtonEvent up false s1 in
  let s3 := handlePointerLeaveEvent leave s1 in
  ("mousemove" ∈ SpatialControls.elementListeners (controls s1))
  /\ SpatialControls.dragging (controls s1) = true
  /\ lastScreenPosition s1 = (screenX down, screenY down)
  /\ ("mousemove" ∉ SpatialControls.elementListeners (controls s2))
  /\ SpatialControls.dragging (controls s2) = false
  /\ lastScreenPosition s2 = (screenX down, screenY down)
  /\ defaultPrevented s2 = type up :: type down :: defaultPrevented s
  /\ ("mousemove" ∉ SpatialControls.elementListeners (controls s3))
  /\ SpatialControls.dragging (controls s3) = true
  /\ defaultPrevented s3 = type down :: defaultPrevented s
  /\ SpatialControls.domCalls (controls s2) = SpatialControls.domCalls (controls s)
  /\ SpatialControls.domCalls (controls s3) = SpatialControls.domCalls (controls s)
  /\ same_pose (controls s2) (controls s)
  /\ same_pose (controls s3) (controls s).
Proof using Type.
  clear adjustSpherical updateSpherical updatePosition updateQuaternion zoom
    MovementStrategy_execute BoostStrategy_execute ZoomStrategy_execute.
  intros [dty db dx dy dmx dmy dk ddy dt] [uty ub ux uy umx umy uk udy ut]
    leave [c lsp [b ps sx sy kb] dp] Hb Hd Hu.
  destruct c as [pl hd rq ex dl bl el dc pos q tg rm ms ts dr en st ev].
  cbn [inputSettings behaviour button] in Hb, Hd, Hu. subst b db ub.
  eval_handlers.
  split_and!; try exact eq_refl; set_solver.
Qed.

(** X19. With a pointer behaviour other than the default, a press and a
    release of the main button alike request the pointer lock, unless the
    element holds it already or does not offer [requestPointerLock], and
    touch neither the listeners nor the last screen position; the drag flag
    follows the button.  Whatever the
    behaviour, a button other than the main one has its default prevented
    and nothing else happens. *)
Theorem locking_button_requests_lock :
  forall (event : Event) (pressed : bool) (s : t R),
  behaviour (inputSettings s) <> DEFAULT ->
  (button event = MAIN ->
     let s' := handlePointerButtonEvent event pressed s in
     SpatialControls.domCalls (controls s')
     = (if negb (SpatialControls.pointerLocked (controls s))
           && SpatialControls.requestPointerLockDefined (controls s)
        then
          "requestPointerLock"%string :: SpatialControls.domCalls (controls s)
        else SpatialControls.domCalls (controls s))
     /\ SpatialControls.dragging (controls s') = pressed
     /\ SpatialControls.elementListeners (controls s')
        = SpatialControls.elementListeners (controls s)
     /\ lastScreenPosition s' = lastScreenPosition s
     /\ defaultPrevented s' = type event :: defaultPrevented s
     /\ same_pose (controls s') (controls s))
  /\ (button event <> MAIN ->
     handlePointerButtonEvent event pressed s = preventDefault event s).
Proof.
  intros [ty b x y mx my k dy tt] pressed [c lsp [bh ps sx sy kb] dp] Hb.
  destruct c as [pl hd rq ex dl bl el dc pos q tg rm ms ts dr en st ev].
  cbn [inputSettings behaviour button] in *. split.
  - intros ->. destruct bh; [contradiction| |]; destruct pl, rq;
      eval_handlers; split_and!; exact eq_refl.
  - intros Hm. destruct b; [contradiction| | |]; reflexivity.
Qed.

(** X20. A pointer move never touches the movement state, the listeners,
    the controller's flags or the page.  While the element holds the
    pointer lock the last screen position is left alone, and the move is
    ignored altogether unless the behaviour is LOCK or a drag is going on;
    without the pointer lock the last screen position becomes the one of
    the event. *)
Theorem pointer_move_effect :
  forall (event : Event) (s : t R),
  let s' := handlePointerMoveEvent adjustSpherical updateQuaternion event s in
  same_page (controls s') (controls s)
  /\ SpatialControls.movementState (controls s')
     = SpatialControls.movementState (controls s)
  /\ inputSettings s' = inputSettings s
  /\ defaultPrevented s' = defaultPrevented s
  /\ lastScreenPosition s'
     = (if SpatialControls.pointerLocked (controls s)
        then lastScreenPosition s
        else (screenX event, screenY event))
  /\ (if SpatialControls.pointerLocked (controls s)
         && negb (PointerBehaviour_eqb (behaviour (inputSettings s)) LOCK)
         && negb (SpatialControls.dragging (controls s))
      then s' = s
      else
        exists a b : number,
          s' = rotate adjustSpherical updateQuaternion a b
                 (if SpatialControls.pointerLocked (controls s) then s
                  else setLastScreenPosition (screenX event) (screenY event) s)).
Proof.
  intros [ty b x y mx my k dy tt] [c lsp [bh ps sx sy kb] dp].
  destruct c as [pl hd rq ex dl bl el dc pos q tg rm ms ts dr en st ev].
  destruct pl, bh, dr; cbv zeta; split_and!; try exact eq_refl;
    try (unfold same_page; split_and!; exact eq_refl);
    eval_handlers; eexists _, _; exact eq_refl.
Qed.

(** X21. A touch: "touchstart" with a touch point registers the touchmove
    listener and stores the screen position of the first touch point,
    "touchend" removes the listener again; both have their default
    prevented, neither touches the pose or the movement state. *)
Theorem touch_cycle :
  forall (start finish : Event) (touch : Touch) (rest : list Touch) (s : t R),
  touches start = touch :: rest ->
  exists s1 s2 : t R,
    handleTouchEvent start true s = Some s1
    /\ handleTouchEvent finish false s1 = Some s2
    /\ ("touchmove" ∈ SpatialControls.elementListeners (controls s1))
    /\ lastScreenPosition s1 = (touch_screenX touch, touch_screenY touch)
    /\ ("touchmove" ∉ SpatialControls.elementListeners (controls s2))
    /\ lastScreenPosition s2 = (touch_screenX touch, touch_screenY touch)
    /\ defaultPrevented s2 = type finish :: type start :: defaultPrevented s
    /\ same_pose (controls s2) (controls s)
    /\ SpatialControls.movementState (controls s2)
       = SpatialControls.movementState (controls s).
Proof using Type.
  clear adjustSpherical updateSpherical updatePosition updateQuaternion zoom
    MovementStrategy_execute BoostStrategy_execute ZoomStrategy_execute.
  intros [ty b x y mx my k dy tt] finish touch rest
    [c lsp [bh ps sx sy kb] dp] Ht.
  destruct c as [pl hd rq ex dl bl el dc pos q tg rm ms ts dr en st ev].
  cbn [touches] in Ht. subst tt.
  eexists _, _. split; [exact eq_refl|]. split; [exact eq_refl|].
  eval_handlers. split_and!; try exact eq_refl; set_solver.
Qed.

(** [<] is asymmetric. *)
Lemma ltb_asym (x y : number) : (x <? y) = true -> (y <? x) = false.
Proof.
  rewrite !FloatAxioms.ltb_spec. unfold SFltb.
  rewrite (SFcompare_antisym (Prim2SF x) (Prim2SF y)).
  destruct (SFcompare (Prim2SF x) (Prim2SF y)) as [[]|]; simpl;
    intros H; try reflexivity; discriminate H.
Qed.

(** A number that is neither below nor above zero is a zero. *)
Lemma is_zero_of_neither (x : number) :
  is_nan x = false -> (x <? 0) = false -> (0 <? x) = false -> is_zero x = true.
Proof.
  intros Hn. apply is_nan_Prim2SF in Hn. unfold is_zero. revert Hn.
  rewrite !FloatAxioms.ltb_spec, FloatAxioms.eqb_spec. unfold SFltb, SFeqb.
  change (Prim2SF 0) with (S754_zero false).
  destruct (Prim2SF x) as [s|s| |s m e]; simpl; try reflexivity;
    try congruence; destruct s; intros; congruence.
Qed.

(** A NaN is below and above nothing. *)
Lemma ltb_nan (x y : number) :
  is_nan x || is_nan y = true -> (x <? y) = false.
Proof.
  intros H. destruct (x <? y) eqn:E; [|reflexivity].
  destruct (is_nan_of_ltb _ _ E) as [Hx Hy]. rewrite Hx, Hy in H.
  discriminate H.
Qed.

(** X22. A wheel event hands the rotation manager's [zoom] the sign of
    [deltaY] only: the direction is -1, 1, a zero or NaN, it is below and
    above zero exactly when [deltaY] is, and it is NaN exactly when
    [deltaY] is.  The handler touches neither the page nor the movement
    state and prevents no default action. *)
Theorem wheel_direction :
  forall (event : Event) (s : t R),
  let d := Math_sign (deltaY event) in
  let s' := handleWheelEvent zoom event s in
  s' = setControls
         (SpatialControls.with_rotationManager (zoom d) (controls s)) s
  /\ (d = -1 \/ d = 1 \/ is_zero d = true \/ is_nan d = true)
  /\ (d <? 0) = (deltaY event <? 0)
  /\ (0 <? d) = (0 <? deltaY event)
  /\ is_nan d = is_nan (deltaY event)
  /\ same_page (controls s') (controls s)
  /\ SpatialControls.movementState (controls s')
     = SpatialControls.movementState (controls s)
  /\ lastScreenPosition s' = lastScreenPosition s
  /\ defaultPrevented s' = defaultPrevented s.
Proof.
  intros event s d s'. split; [reflexivity|].
  assert (Hd : (d = -1 \/ d = 1 \/ is_zero d = true \/ is_nan d = true)
               /\ (d <? 0) = (deltaY event <? 0)
               /\ (0 <? d) = (0 <? deltaY event)
               /\ is_nan d = is_nan (deltaY event)).
  { unfold d, Math_sign.
    destruct (is_nan (deltaY event)) eqn:Hn.
    - rewrite !ltb_nan by (rewrite ?Hn, ?orb_true_r; reflexivity).
      split_and!; auto.
    - destruct (deltaY event <? 0) eqn:Hneg.
      + rewrite (ltb_asym _ _ Hneg). split_and!; auto.
      + destruct (0 <? deltaY event) eqn:Hpos.
        * split_and!; auto.
        * rewrite Hneg, Hpos, Hn. split_and!; auto.
          right. right. left. now apply is_zero_of_neither. }
  destruct Hd as (H1 & H2 & H3 & H4).
  split_and!; try assumption; try reflexivity.
  unfold same_page. split_and!; reflexivity.
Qed.

End InputCoverage.

(** ** The input handlers at concrete events *)

Section InputWitnesses.

Import JS Listeners Input InputScenarios.
Local Open Scope float_scope.
Local Set Warnings "-clear-no-such-hyp".

(** The theorem at a "click" event, for which the controller has no
    case. *)
Lemma handleEvent_ignores_other_types_witness :
  handleEvent (fun _ _ => idle_rotation) idle_rotation idle_rotation
    idle_rotation (fun _ => idle_rotation) MovementState.set_direction
    (fun _ s => s) (fun _ _ => idle_rotation)
    (pointer "click" 3 4) (input DEFAULT)
  = Some (input DEFAULT).
Proof.
  apply handleEvent_ignores_other_types.
  unfold handledTypes, documentTypes, bodyTypes, elementTypes, moveTypes.
  set_solver.
Defined.

(** The theorem at a press at (3,4), a release at (5,6) and a leave. *)
Lemma default_drag_cycle_witness :
  lastScreenPosition
    (handlePointerButtonEvent (pointer "mousedown" 3 4) true (input DEFAULT))
  = (3, 4)
  /\ SpatialControls.dragging
       (controls
          (handlePointerLeaveEvent (pointer "mouseleave" 9 9)
             (handlePointerButtonEvent (pointer "mousedown" 3 4) true
                (input DEFAULT))))
     = true.
Proof.
  pose proof
    (default_drag_cycle (pointer "mousedown" 3 4) (pointer "mouseup" 5 6)
       (pointer "mouseleave" 9 9) (input DEFAULT) eq_refl eq_refl eq_refl)
    as H.
  cbv zeta in H.
  destruct H as (_ & _ & Hp & _ & _ & _ & _ & _ & Hd & _).
  split; [exact Hp | exact Hd].
Defined.

(** The theorem at a release of the main button with the LOCK behaviour
    while the element offers the pointer lock and does not hold it. *)
Lemma locking_button_requests_lock_witness :
  SpatialControls.domCalls
    (controls (handlePointerButtonEvent (pointer "mouseup" 5 6) false (input LOCK)))
  = ["requestPointerLock"%string].
Proof.
  assert (Hb : behaviour (inputSettings (input LOCK)) <> DEFAULT)
    by discriminate.
  destruct (locking_button_requests_lock (pointer "mouseup" 5 6) false
              (input LOCK) Hb) as (Hmain & _).
  destruct (Hmain eq_refl) as (Hc & _).
  exact Hc.
Defined.

(** The theorem at a "touchmove" event without a touch point. *)
Lemma handleEvent_fails_without_touch_witness :
  handleEvent (fun _ _ => idle_rotation) idle_rotation idle_rotation
    idle_rotation (fun _ => idle_rotation) MovementState.set_direction
    (fun _ s => s) (fun _ _ => idle_rotation)
    (pointer "touchmove" 3 4) (input DEFAULT)
  = None.
Proof.
  apply handleEvent_fails_without_touch; [right|]; reflexivity.
Defined.

(** The theorem at a touch that starts at (7,8). *)
Lemma touch_cycle_witness :
  exists s1 s2 : t unit,
    handleTouchEvent (touch "touchstart" 7 8) true (input DEFAULT) = Some s1
    /\ handleTouchEvent (pointer "touchend" 0 0) false s1 = Some s2
    /\ lastScreenPosition s2 = (7, 8).
Proof.
  destruct (touch_cycle (touch "touchstart" 7 8) (pointer "touchend" 0 0)
              (mkTouch 7 8) [] (input DEFAULT) eq_refl)
    as (s1 & s2 & H1 & H2 & _ & _ & _ & Hp & _).
  exists s1, s2. split; [exact H1|]. split; [exact H2 | exact Hp].
Defined.

End InputWitnesses.
